(** * Fleet provisioning demo: the orchestration script [main.py]

    A shallow embedding of [run_provisioning], [sensor_simulator] and
    [check_real_cert] of [src/main.py], and the properties of the
    certificate lifecycle and of the job-agent loop that the script
    decides.

    The script is stateful glue around three collaborators that live in
    other modules ([ProvisioningHandler], [DeviceJobAgent], the file
    system).  It is embedded as a small monad over an explicit [World]:
    every observable action is recorded in a trace together with the world
    in which it happens, exceptions are an outcome of their own, and the
    two [while] loops run on fuel. *)

From Stdlib Require Import String Ascii List Bool Arith Lia Permutation.
Import ListNotations.
Open Scope string_scope.
Open Scope list_scope.

Set Implicit Arguments.

(** ** Strings and paths *)

(** Python's [str.endswith]. *)
Definition endswith (s suffix : string) : bool :=
  Nat.leb (String.length suffix) (String.length s) &&
  String.eqb
    (substring (String.length s - String.length suffix) (String.length suffix) s)
    suffix.

(** ["{}/{}".format(a, b)] *)
Definition format_path (a b : string) : string := (a ++ "/" ++ b)%string.

(** ["{}{}".format(a, b)] *)
Definition format_concat (a b : string) : string := (a ++ b)%string.

(** ** The file system, as [os.path] and [open] see it *)

Inductive node : Type :=
| File (content : string)
| Dir (entries : list string).   (* in the order [os.listdir] yields them *)

Definition FileSystem : Type := list (string * node).

Fixpoint fs_lookup (fs : FileSystem) (path : string) : option node :=
  match fs with
  | [] => None
  | (p, n) :: rest => if String.eqb p path then Some n else fs_lookup rest path
  end.

Definition os_path_exists (fs : FileSystem) (path : string) : bool :=
  match fs_lookup fs path with
  | Some _ => true
  | None => false
  end.

Definition os_path_isdir (fs : FileSystem) (path : string) : bool :=
  match fs_lookup fs path with
  | Some (Dir _) => true
  | _ => false
  end.

(** [open(path)] succeeds on a regular file; on a missing path or on a
    directory it raises a subclass of [OSError], which is [IOError]. *)
Definition can_open (fs : FileSystem) (path : string) : bool :=
  match fs_lookup fs path with
  | Some (File _) => true
  | _ => false
  end.

(** ** Module-level configuration and the provisioner object *)

(** The four globals read from the [SETTINGS] section of [config.ini]. *)
Record Settings : Type := {
  secure_cert_path : string;   (* SECURE_CERT_PATH *)
  bootstrap_cert : string;     (* CLAIM_CERT *)
  actua_cert_path : string;    (* ACTUAL_CERT_PATH *)
  thing_prefix : string        (* THING_PREFIX *)
}.

(** The attributes of the [ProvisioningHandler] instance that the script
    reads or assigns. *)
Module Provisioner.
Record t : Type := {
  isFirst : bool;
  new_cert_name : string;
  new_key_name : string;
  unique_id : string;
  iot_endpoint : string;
  actua_cert_path : string;
  secure_cert_path : string;
  root_cert : string
}.

Definition set_isFirst (b : bool) (p : t) : t :=
  {| isFirst := b; new_cert_name := new_cert_name p;
     new_key_name := new_key_name p; unique_id := unique_id p;
     iot_endpoint := iot_endpoint p; actua_cert_path := actua_cert_path p;
     secure_cert_path := secure_cert_path p; root_cert := root_cert p |}.

Definition set_new_cert_name (s : string) (p : t) : t :=
  {| isFirst := isFirst p; new_cert_name := s;
     new_key_name := new_key_name p; unique_id := unique_id p;
     iot_endpoint := iot_endpoint p; actua_cert_path := actua_cert_path p;
     secure_cert_path := secure_cert_path p; root_cert := root_cert p |}.

Definition set_new_key_name (s : string) (p : t) : t :=
  {| isFirst := isFirst p; new_cert_name := new_cert_name p;
     new_key_name := s; unique_id := unique_id p;
     iot_endpoint := iot_endpoint p; actua_cert_path := actua_cert_path p;
     secure_cert_path := secure_cert_path p; root_cert := root_cert p |}.
End Provisioner.

(** The five positional arguments of a [DeviceJobAgent(...)] construction:
    thing name, endpoint, certificate path, private key path, root CA
    path. *)
Record JobAgent : Type := {
  agent_thing_name : string;
  agent_endpoint : string;
  agent_cert : string;
  agent_key : string;
  agent_root_ca : string
}.

(** Lines 96 and 113: the arguments are all formatted from the provisioner
    object (and the [thing_prefix] global). *)
Definition agent_arguments (prefix : string) (p : Provisioner.t) : JobAgent :=
  {| agent_thing_name := format_concat prefix (Provisioner.unique_id p);
     agent_endpoint := Provisioner.iot_endpoint p;
     agent_cert := format_path (Provisioner.actua_cert_path p) (Provisioner.new_cert_name p);
     agent_key := format_path (Provisioner.actua_cert_path p) (Provisioner.new_key_name p);
     agent_root_ca := format_path (Provisioner.secure_cert_path p) (Provisioner.root_cert p) |}.

(** ** Exceptions and observable actions *)

Inductive exn : Type :=
| IOError        (* OSError and its subclasses *)
| IndexError
| OtherError (name : string).

Inductive event : Type :=
| EvPrint (text : string)
| EvOpen (path : string)
| EvGetOfficialCerts (isRotation : bool)
| EvTestRestrictedTopic (message : string)
| EvThreadStart
| EvNewAgent (args : JobAgent)
| EvInit (agent : JobAgent)
| EvIsRebooting (agent : JobAgent) (answer : option bool)   (* [None]: the call raised *)
| EvSleep (seconds : nat)
| EvDisconnect (agent : JobAgent).

(** Modelled from the spec: the default of the [isRotation] parameter of
    [ProvisioningHandler.get_official_certs], whose module is not among the
    sources.  Line 83 calls the method without the argument; the spec names
    that call [requestOfficialCertificate(isRotation=false)]. *)
Definition get_official_certs_default_isRotation : bool := false.

Section Orchestration.

(** Whatever the collaborators keep to themselves: the network, the cloud
    side, the job agent's session, the sensor thread. *)
Context {Ext : Type}.

Record World : Type := {
  fs : FileSystem;
  provisioner : Provisioner.t;
  ext : Ext
}.

Definition with_provisioner (f : Provisioner.t -> Provisioner.t) (w : World) : World :=
  {| fs := fs w; provisioner := f (provisioner w); ext := ext w |}.

(** How a call of a collaborator ends. *)
Inductive result (A : Type) : Type :=
| Returns (a : A) (w : World)
| Raises (e : exn) (w : World).

Arguments Raises {A} e w.

(** The methods the script calls on its collaborators.  They are not part
    of the sources, so every property below holds for all of them.
    [get_official_certs] also reports the payloads it hands to the
    script's [callback], each with the world in which that happens. *)
Record Collaborators : Type := {
  get_official_certs : bool -> World -> list (World * string) * result unit;
  test_restricted_topic : string -> World -> result unit;
  DeviceJobAgent : JobAgent -> World -> result unit;
  init : JobAgent -> World -> result unit;
  isRebooting : JobAgent -> World -> result bool;
  disconnect : JobAgent -> World -> result unit
}.

(** ** The monad of the script *)

Definition trace : Type := list (World * event).

Inductive outcome (A : Type) : Type :=
| Ok (a : A) (w : World)        (* normal return *)
| Raised (e : exn) (w : World)  (* an exception propagates *)
| OutOfFuel.                    (* still running *)

Arguments Raised {A} e w.
Arguments OutOfFuel {A}.

Definition M (A : Type) : Type := World -> trace * outcome A.

Definition ret {A} (a : A) : M A := fun w => ([], Ok a w).

Definition bind {A B} (m : M A) (k : A -> M B) : M B := fun w =>
  match m w with
  | (t1, Ok a w1) => let (t2, o) := k a w1 in (t1 ++ t2, o)
  | (t1, Raised e w1) => (t1, Raised e w1)
  | (t1, OutOfFuel) => (t1, OutOfFuel)
  end.

Definition raise {A} (e : exn) : M A := fun w => ([], Raised e w).

Definition out_of_fuel {A} : M A := fun _ => ([], OutOfFuel).

Definition emit (e : event) : M unit := fun w => ([(w, e)], Ok tt w).

Definition get_world : M World := fun w => ([], Ok w w).

Definition modify (f : World -> World) : M unit := fun w => ([], Ok tt (f w)).

Definition of_result {A} (r : result A) : outcome A :=
  match r with
  | Returns a w => Ok a w
  | Raises e w => Raised e w
  end.

(** A call of a collaborator: the call is recorded, then it runs. *)
Definition call {A} (e : event) (f : World -> result A) : M A := fun w =>
  ([(w, e)], of_result (f w)).

(** [try: body except IOError: handler] *)
Definition try_except_IOError {A} (body handler : M A) : M A := fun w =>
  match body w with
  | (t1, Raised IOError w1) => let (t2, o) := handler w1 in (t1 ++ t2, o)
  | r => r
  end.

Declare Scope script_scope.
Delimit Scope script_scope with script.
Notation "x <- m ;; k" := (bind m (fun x => k))
  (at level 61, m at next level, right associativity) : script_scope.
Notation "m ;; k" := (bind m (fun _ => k))
  (at level 61, right associativity) : script_scope.
Local Open Scope script_scope.

Definition print (text : string) : M unit := emit (EvPrint text).

Definition os_listdir (path : string) : M (list string) := fun w =>
  match fs_lookup (fs w) path with
  | Some (Dir entries) => ([], Ok entries w)
  | _ => ([], Raised IOError w)
  end.

(** [files[0]] *)
Definition index0 (files : list string) : M string :=
  match files with
  | [] => raise IndexError
  | x :: _ => ret x
  end.

(** [with open(path) as f: body] *)
Definition with_open {A} (path : string) (body : M A) : M A :=
  emit (EvOpen path) ;;
  w <- get_world ;;
  if can_open (fs w) path then body else raise IOError.

Variable env : Collaborators.
Variable cfg : Settings.

(** ** The script *)

(** Lines 60-61. *)
Definition callback (payload : string) : M unit := print payload.

(** What the handler's calls of [callback] leave in the trace. *)
Definition callback_trace (payloads : list (World * string)) : trace :=
  flat_map (fun wp => fst (callback (snd wp) (fst wp))) payloads.

(** [provisioner.get_official_certs(callback, isRotation=...)] *)
Definition provisioner_get_official_certs (isRotation : bool) : M unit := fun w =>
  let (payloads, r) := get_official_certs env isRotation w in
  ((w, EvGetOfficialCerts isRotation) :: callback_trace payloads, of_result r).

(** Lines 70-86. *)
Definition run_provisioning (isRotation : bool) : M unit :=
  if isRotation then
    provisioner_get_official_certs true
  else
    try_except_IOError
      (with_open (format_path (secure_cert_path cfg) (bootstrap_cert cfg))
         (provisioner_get_official_certs get_official_certs_default_isRotation))
      (print "### Bootstrap cert non-existent. Official cert may already be in place.").

(** Lines 123-126.  The thread itself runs beside the script; what it does
    is part of [Ext]. *)
Definition sensor_simulator : M unit :=
  emit EvThreadStart ;;
  print "Sensor thread Started".

(** Lines 99-100 and 116-117: [while not jobagent.isRebooting(): time.sleep(1)].
    Fuel bounds the number of polls; the event of a poll records its
    answer. *)
Fixpoint wait_for_reboot (fuel : nat) (jobagent : JobAgent) : M unit :=
  match fuel with
  | O => out_of_fuel
  | S fuel' => fun w =>
      match isRebooting env jobagent w with
      | Raises e w1 => ([(w, EvIsRebooting jobagent None)], Raised e w1)
      | Returns true w1 => ([(w, EvIsRebooting jobagent (Some true))], Ok tt w1)
      | Returns false w1 =>
          let (t, o) := (emit (EvSleep 1) ;; wait_for_reboot fuel' jobagent) w1 in
          ((w, EvIsRebooting jobagent (Some false)) :: t, o)
      end
  end.

(** Lines 97-101 and 114-118: the [while True] loop.  Fuel bounds the
    number of cycles, and the polls of each. *)
Fixpoint job_loop (fuel : nat) (jobagent : JobAgent) : M unit :=
  match fuel with
  | O => out_of_fuel
  | S fuel' =>
      call (EvInit jobagent) (init env jobagent) ;;
      wait_for_reboot fuel' jobagent ;;
      call (EvDisconnect jobagent) (disconnect env jobagent) ;;
      job_loop fuel' jobagent
  end.

(** Lines 96 and 113: [jobagent = DeviceJobAgent(...)] *)
Definition new_jobagent : M JobAgent :=
  w <- get_world ;;
  let jobagent := agent_arguments (thing_prefix cfg) (provisioner w) in
  call (EvNewAgent jobagent) (DeviceJobAgent env jobagent) ;;
  ret jobagent.

(** Lines 88-121. *)
Definition check_real_cert (fuel : nat) : M unit :=
  w <- get_world ;;
  if os_path_exists (fs w) (actua_cert_path cfg) && os_path_isdir (fs w) (actua_cert_path cfg) then
    listing <- os_listdir (actua_cert_path cfg) ;;
    match listing with
    | [] =>
        print "Actual cert Directory is empty" ;;
        run_provisioning false ;;
        print "Starting sensor" ;;
        sensor_simulator ;;
        print "Provisioning complete. Starting job agent to listen for jobs" ;;
        jobagent <- new_jobagent ;;
        job_loop fuel jobagent
    | _ :: _ =>
        modify (with_provisioner (Provisioner.set_isFirst false)) ;;
        print "Directory is not empty so actual cert downloaded" ;;
        listing1 <- os_listdir (actua_cert_path cfg) ;;
        let files := filter (fun filename => endswith filename ".crt") listing1 in
        cert <- index0 files ;;
        modify (with_provisioner (Provisioner.set_new_cert_name cert)) ;;
        listing2 <- os_listdir (actua_cert_path cfg) ;;
        let files := filter (fun filename => endswith filename ".key") listing2 in
        key <- index0 files ;;
        modify (with_provisioner (Provisioner.set_new_key_name key)) ;;
        call (EvTestRestrictedTopic "test message") (test_restricted_topic env "test message") ;;
        print "Starting sensor" ;;
        sensor_simulator ;;
        print "Starting job agent to listen for jobs" ;;
        jobagent <- new_jobagent ;;
        job_loop fuel jobagent
    end
  else
    print "Given directory doesn't exist".

End Orchestration.

Arguments Raises {Ext A} e w.
Arguments Raised {Ext A} e w.
Arguments OutOfFuel {Ext A}.

(** ** A concrete device, to run the script on

    A configuration, a cooperative set of collaborators and four file
    systems.  [Ext] counts the [isRebooting] polls made so far: every third
    poll reports a reboot request. *)

Module Demo.

Definition settings : Settings :=
  {| secure_cert_path := "certs"; bootstrap_cert := "bootstrap.crt";
     actua_cert_path := "actual"; thing_prefix := "thing_" |}.

Definition handler : Provisioner.t :=
  {| Provisioner.isFirst := true;
     Provisioner.new_cert_name := "";
     Provisioner.new_key_name := "";
     Provisioner.unique_id := "dev42";
     Provisioner.iot_endpoint := "endpoint.example";
     Provisioner.actua_cert_path := "actual";
     Provisioner.secure_cert_path := "certs";
     Provisioner.root_cert := "root.ca.pem" |}.

Definition claim_files : FileSystem :=
  [ ("certs", Dir ["bootstrap.crt"; "bootstrap.key"; "root.ca.pem"]);
    ("certs/bootstrap.crt", File "CLAIM CERT");
    ("certs/bootstrap.key", File "CLAIM KEY");
    ("certs/root.ca.pem", File "ROOT CA") ].

Definition production_files : FileSystem :=
  [ ("actual", Dir ["dev42.crt"; "dev42.key"]);
    ("actual/dev42.crt", File "PRODUCTION CERT");
    ("actual/dev42.key", File "PRODUCTION KEY") ].

Definition world (files : FileSystem) : @World nat :=
  {| fs := files; provisioner := handler; ext := 0 |}.

(** The directory of production certificates is missing. *)
Definition no_directory : @World nat := world claim_files.

(** First boot: the directory is there and empty. *)
Definition first_boot : @World nat := world (("actual", Dir []) :: claim_files).

(** First boot of a device that was shipped without its claim certificate. *)
Definition first_boot_no_claim : @World nat := world [("actual", Dir [])].

(** A provisioned device. *)
Definition provisioned : @World nat := world (production_files ++ claim_files).

(** A directory that holds something, but no certificate. *)
Definition stray_file : @World nat :=
  world (("actual", Dir ["notes.txt"]) :: ("actual/notes.txt", File "todo") :: claim_files).

(** A certificate without its key. *)
Definition missing_key : @World nat :=
  world (("actual", Dir ["dev42.crt"]) :: ("actual/dev42.crt", File "PRODUCTION CERT")
           :: claim_files).

(** Certificate and key files that are empty. *)
Definition empty_blobs : @World nat :=
  world (("actual", Dir ["dev42.crt"; "dev42.key"]) :: ("actual/dev42.crt", File "")
           :: ("actual/dev42.key", File "") :: claim_files).

(** A device that has rotated its certificate once: two pairs of files,
    listed in three different orders. *)
Definition rotated (entries : list string) : @World nat :=
  world (("actual", Dir entries)
           :: ("actual/a.crt", File "CERT A") :: ("actual/a.key", File "KEY A")
           :: ("actual/b.crt", File "CERT B") :: ("actual/b.key", File "KEY B")
           :: claim_files).

Definition rotated_ab : @World nat := rotated ["a.crt"; "b.crt"; "a.key"; "b.key"].
Definition rotated_ba : @World nat := rotated ["b.crt"; "a.crt"; "a.key"; "b.key"].
Definition rotated_mixed : @World nat := rotated ["a.crt"; "b.key"; "b.crt"; "a.key"].

Definition provisioned_handler (p : Provisioner.t) : Provisioner.t :=
  Provisioner.set_new_key_name "dev42.key" (Provisioner.set_new_cert_name "dev42.crt" p).

(** The world a successful provisioning exchange leaves. *)
Definition issued (w : @World nat) : @World nat :=
  {| fs := production_files ++ fs w;
     provisioner := provisioned_handler (provisioner w);
     ext := ext w |}.

(** The same world once [n] polls have been answered. *)
Definition polled (n : nat) (w : @World nat) : @World nat :=
  {| fs := fs w; provisioner := provisioner w; ext := n |}.

(** The job agent of this device. *)
Definition agent : JobAgent :=
  {| agent_thing_name := "thing_dev42";
     agent_endpoint := "endpoint.example";
     agent_cert := "actual/dev42.crt";
     agent_key := "actual/dev42.key";
     agent_root_ca := "certs/root.ca.pem" |}.

Definition collaborators : @Collaborators nat :=
  {| get_official_certs := fun _ w =>
       ([(issued w, "certificate activated")], Returns tt (issued w));
     test_restricted_topic := fun _ w => Returns tt w;
     DeviceJobAgent := fun _ w => Returns tt w;
     init := fun _ w => Returns tt w;
     isRebooting := fun _ w =>
       Returns (Nat.eqb (Nat.modulo (ext w) 3) 2)
               {| fs := fs w; provisioner := provisioner w; ext := S (ext w) |};
     disconnect := fun _ w => Returns tt w |}.

(** The same collaborators, with a provisioning exchange that fails on a
    file it cannot write. *)
Definition failing_exchange : @Collaborators nat :=
  {| get_official_certs := fun _ w => ([], Raises IOError w);
     test_restricted_topic := test_restricted_topic collaborators;
     DeviceJobAgent := DeviceJobAgent collaborators;
     init := init collaborators;
     isRebooting := isRebooting collaborators;
     disconnect := disconnect collaborators |}.

(** The same collaborators, with a provisioning exchange whose connection
    times out (an exception of the MQTT client, no [OSError]). *)
Definition timed_out_exchange : @Collaborators nat :=
  {| get_official_certs := fun _ w => ([], Raises (OtherError "connectTimeoutException") w);
     test_restricted_topic := test_restricted_topic collaborators;
     DeviceJobAgent := DeviceJobAgent collaborators;
     init := init collaborators;
     isRebooting := isRebooting collaborators;
     disconnect := disconnect collaborators |}.

(** The device keeps the identifier it was built with. *)
Definition is_dev42 (w : @World nat) : Prop :=
  Provisioner.unique_id (provisioner w) = "dev42".

(** The agent a device that never got its certificate would be given. *)
Definition unprovisioned_agent : JobAgent :=
  {| agent_thing_name := "thing_dev42";
     agent_endpoint := "endpoint.example";
     agent_cert := "actual/";
     agent_key := "actual/";
     agent_root_ca := "certs/root.ca.pem" |}.





(** The same collaborators, with a connectivity probe that fails. *)
Definition failing_probe : @Collaborators nat :=
  {| get_official_certs := get_official_certs collaborators;
     test_restricted_topic := fun _ w => Raises (OtherError "publishTimeoutException") w;
     DeviceJobAgent := DeviceJobAgent collaborators;
     init := init collaborators;
     isRebooting := isRebooting collaborators;
     disconnect := disconnect collaborators |}.

End Demo.


(** ** Vocabulary of the properties *)

(** The events of a trace, without the worlds. *)
Definition events {Ext : Type} (t : @trace Ext) : list event := map snd t.

(** What [os.listdir(actua_cert_path)] yields, when the path is a
    directory. *)
Definition listing_of {Ext : Type} (cfg : Settings) (w : @World Ext) : option (list string) :=
  match fs_lookup (fs w) (actua_cert_path cfg) with
  | Some (Dir entries) => Some entries
  | _ => None
  end.

(** The path [run_provisioning] opens to look for the claim certificate. *)
Definition claim_cert_path (cfg : Settings) : string :=
  format_path (secure_cert_path cfg) (bootstrap_cert cfg).

(** No production identity is stored: the directory is missing, or it is
    there and empty. *)
Definition no_production_identity {Ext : Type} (cfg : Settings) (w : @World Ext) : Prop :=
  listing_of cfg w = None \/ listing_of cfg w = Some [].

(** [get_official_certs] was called, with this [isRotation]. *)
Definition provisioning_invoked {Ext : Type} (isRotation : bool) (t : @trace Ext) : Prop :=
  exists w, In (w, EvGetOfficialCerts isRotation) t.

Definition is_crt (filename : string) : bool := endswith filename ".crt".
Definition is_key (filename : string) : bool := endswith filename ".key".

(** [x] is the first entry of [listing] that satisfies [p]. *)
Definition first_match (p : string -> bool) (listing : list string) (x : string) : Prop :=
  exists before after,
    listing = before ++ x :: after /\ p x = true /\ forall y, In y before -> p y = false.


(** The calls of the job-agent loop. *)
Definition is_loop_event (e : event) : bool :=
  match e with
  | EvInit _ | EvIsRebooting _ _ | EvSleep _ | EvDisconnect _ => true
  | _ => false
  end.

(** The order of the loop: which call may directly follow which. *)
Inductive loop_next (ja : JobAgent) : event -> event -> Prop :=
| next_first_poll r : loop_next ja (EvInit ja) (EvIsRebooting ja r)
| next_sleep : loop_next ja (EvIsRebooting ja (Some false)) (EvSleep 1)
| next_poll r : loop_next ja (EvSleep 1) (EvIsRebooting ja r)
| next_disconnect : loop_next ja (EvIsRebooting ja (Some true)) (EvDisconnect ja)
| next_init : loop_next ja (EvDisconnect ja) (EvInit ja).

(** The order of a whole run: before the loop nothing is asked of the
    agent; the loop is entered by an [init] on the agent just constructed;
    once in the loop, the order is the loop's. *)
Definition script_next (ja : JobAgent) (e1 e2 : event) : Prop :=
  loop_next ja e1 e2 \/
  (is_loop_event e1 = false /\
   (is_loop_event e2 = false \/ (e1 = EvNewAgent ja /\ e2 = EvInit ja))).

(** Every element of [l] is related to the one before it, [prev] being
    before the first. *)
Fixpoint chained {A : Type} (R : A -> A -> Prop) (prev : A) (l : list A) : Prop :=
  match l with
  | [] => True
  | x :: l' => R prev x /\ chained R x l'
  end.

(** The world in which the connectivity probe runs: [isFirst] cleared and
    the two names assigned (lines 103, 106 and 108). *)
Definition selected_world {Ext : Type} (w : @World Ext) (cert key : string) : @World Ext :=
  with_provisioner (Provisioner.set_new_key_name key)
    (with_provisioner (Provisioner.set_new_cert_name cert)
       (with_provisioner (Provisioner.set_isFirst false) w)).

(** What the script may do before the job-agent loop starts, and in which
    world, when it is started in [w]: the claim certificate is looked for
    and the provisioning exchange is made on first boot only, the
    connectivity probe runs with the names selected from the listing, and
    an agent is constructed from the provisioner as it then is. *)
Definition script_event {Ext : Type} (cfg : Settings) (w : @World Ext)
    (we : @World Ext * event) : Prop :=
  match snd we with
  | EvPrint _ | EvThreadStart => True
  | EvOpen path =>
      path = claim_cert_path cfg /\ fst we = w /\ listing_of cfg w = Some []
  | EvGetOfficialCerts isRotation =>
      isRotation = false /\ fst we = w /\ listing_of cfg w = Some [] /\
      can_open (fs w) (claim_cert_path cfg) = true
  | EvTestRestrictedTopic message =>
      message = "test message" /\
      exists listing cert crts key keys,
        listing_of cfg w = Some listing /\ listing <> [] /\
        filter is_crt listing = cert :: crts /\
        filter is_key listing = key :: keys /\
        fst we = selected_world w cert key
  | EvNewAgent args => args = agent_arguments (thing_prefix cfg) (provisioner (fst we))
  | EvInit _ | EvIsRebooting _ _ | EvSleep _ | EvDisconnect _ => False
  end.

(** No collaborator call ever raises. *)
Definition cooperative {Ext : Type} (env : @Collaborators Ext) : Prop :=
  (forall b w, exists w', snd (get_official_certs env b w) = Returns tt w') /\
  (forall m w, exists w', test_restricted_topic env m w = Returns tt w') /\
  (forall ja w, exists w', DeviceJobAgent env ja w = Returns tt w') /\
  (forall ja w, exists w', init env ja w = Returns tt w') /\
  (forall ja w, exists b w', isRebooting env ja w = Returns b w') /\
  (forall ja w, exists w', disconnect env ja w = Returns tt w').

(** How often the events that satisfy [p] occur in a trace. *)
Definition count_events {Ext : Type} (p : event -> bool) (t : @trace Ext) : nat :=
  length (filter (fun we => p (snd we)) t).

Definition is_provisioning_call (e : event) : bool :=
  match e with EvGetOfficialCerts _ => true | _ => false end.

Definition is_thread_start (e : event) : bool :=
  match e with EvThreadStart => true | _ => false end.

Definition is_construction (e : event) : bool :=
  match e with EvNewAgent _ => true | _ => false end.

(** A call of the loop on the agent [ja] ([time.sleep] has no receiver). *)
Definition loop_call_of (ja : JobAgent) (e : event) : Prop :=
  e = EvInit ja \/ (exists answer, e = EvIsRebooting ja answer) \/
  e = EvSleep 1 \/ e = EvDisconnect ja.

(** A property of the world holds where a computation ends. *)
Definition outcome_holds {Ext A : Type} (I : @World Ext -> Prop) (o : @outcome Ext A) : Prop :=
  match o with
  | Ok _ w => I w
  | Raised _ w => I w
  | OutOfFuel => True
  end.

Definition result_holds {Ext A : Type} (I : @World Ext -> Prop) (r : @result Ext A) : Prop :=
  match r with
  | Returns _ w => I w
  | Raises _ w => I w
  end.

(** A computation keeps [I]: started in a world where [I] holds, it
    records only worlds where [I] holds and ends in one. *)
Definition respects {Ext A : Type} (I : @World Ext -> Prop) (m : @M Ext A) : Prop :=
  forall w, I w ->
    Forall (fun we => I (fst we)) (fst (m w)) /\ outcome_holds I (snd (m w)).

(** The collaborators keep [I], whether they return or raise, and also
    where they call back. *)
Definition kept_by_collaborators {Ext : Type} (I : @World Ext -> Prop)
    (env : @Collaborators Ext) : Prop :=
  (forall b w, I w ->
     Forall (fun wp => I (fst wp)) (fst (get_official_certs env b w)) /\
     result_holds I (snd (get_official_certs env b w))) /\
  (forall m w, I w -> result_holds I (test_restricted_topic env m w)) /\
  (forall ja w, I w -> result_holds I (DeviceJobAgent env ja w)) /\
  (forall ja w, I w -> result_holds I (init env ja w)) /\
  (forall ja w, I w -> result_holds I (isRebooting env ja w)) /\
  (forall ja w, I w -> result_holds I (disconnect env ja w)).

(** [I] does not look at the three attributes the script assigns. *)
Definition kept_by_assignments {Ext : Type} (I : @World Ext -> Prop) : Prop :=
  forall w, I w ->
    I (with_provisioner (Provisioner.set_isFirst false) w) /\
    (forall name, I (with_provisioner (Provisioner.set_new_cert_name name) w)) /\
    (forall name, I (with_provisioner (Provisioner.set_new_key_name name) w)).

Unset Implicit Arguments.

(** ** Lists *)

Lemma nil_or_snoc {A : Type} (l : list A) :
  l = [] \/ exists l' x, l = l' ++ [x].
Proof.
  induction l as [|a l IH]; [now left|right].
  destruct IH as [->|(l' & x & ->)].
  - now exists [], a.
  - now exists (a :: l'), x.
Qed.

Lemma last_cons_default {A : Type} (l : list A) (x d : A) :
  last (x :: l) d = last l x.
Proof.
  revert x d; induction l as [|y l IH]; intros x d; [reflexivity|].
  change (last (x :: y :: l) d) with (last (y :: l) d).
  now rewrite !IH.
Qed.

Lemma chained_app {A : Type} (R : A -> A -> Prop) (l1 l2 : list A) (prev : A) :
  chained R prev (l1 ++ l2) <-> chained R prev l1 /\ chained R (last l1 prev) l2.
Proof.
  revert prev; induction l1 as [|x l1 IH]; intros prev.
  - simpl. tauto.
  - rewrite last_cons_default. simpl. rewrite IH. tauto.
Qed.

Lemma chained_middle {A : Type} (R : A -> A -> Prop) (pre post : list A) (prev x : A) :
  chained R prev (pre ++ x :: post) -> R (last pre prev) x /\ chained R x post.
Proof.
  rewrite chained_app. simpl. tauto.
Qed.

Lemma chained_extend {A : Type} (R : A -> A -> Prop) (l rest : list A) (prev x y : A) :
  chained R prev (l ++ [x]) -> R x y -> chained R y rest ->
  chained R prev (l ++ x :: y :: rest).
Proof.
  rewrite !chained_app. simpl. tauto.
Qed.

Lemma last_snoc_inv {A : Type} (l : list A) (d x : A) :
  last l d = x -> x <> d -> exists l', l = l' ++ [x].
Proof.
  intros Hl Hx. destruct (nil_or_snoc l) as [->|(l' & y & ->)].
  - simpl in Hl. congruence.
  - rewrite last_last in Hl. subst. now exists l'.
Qed.

(** A list that starts with [P ++ L] and is cut at an element that does
    not occur in [P] is cut inside [L]. *)
Lemma app_cut_right {A : Type} (P L pre post : list A) (x : A) :
  P ++ L = pre ++ x :: post -> ~ In x P ->
  exists pre2, pre = P ++ pre2 /\ L = pre2 ++ x :: post.
Proof.
  revert pre; induction P as [|p P IH]; intros pre Heq Hx; simpl in *.
  - now exists pre.
  - destruct pre as [|q pre]; simpl in Heq; inversion Heq; subst.
    + exfalso. apply Hx. now left.
    + destruct (IH pre H1) as (pre2 & -> & ->); [tauto|]. now exists pre2.
Qed.

(** ** The job-agent loop *)

Section Loop.

Context {Ext : Type} (env : @Collaborators Ext).

Lemma wait_for_reboot_S (fuel : nat) (ja : JobAgent) (w : World) :
  wait_for_reboot env (S fuel) ja w =
  match isRebooting env ja w with
  | Raises e w1 => ([(w, EvIsRebooting ja None)], Raised e w1)
  | Returns true w1 => ([(w, EvIsRebooting ja (Some true))], Ok tt w1)
  | Returns false w1 =>
      ((w, EvIsRebooting ja (Some false)) :: (w1, EvSleep 1)
         :: fst (wait_for_reboot env fuel ja w1),
       snd (wait_for_reboot env fuel ja w1))
  end.
Proof.
  simpl. destruct (isRebooting env ja w) as [[|] w1|e w1]; try reflexivity.
  unfold bind, emit.
  destruct (wait_for_reboot env fuel ja w1) as [t o]. reflexivity.
Qed.

Lemma job_loop_S (fuel : nat) (ja : JobAgent) (w : World) :
  job_loop env (S fuel) ja w =
  match init env ja w with
  | Raises e w1 => ([(w, EvInit ja)], Raised e w1)
  | Returns _ w1 =>
      match wait_for_reboot env fuel ja w1 with
      | (t, Ok _ w2) =>
          match disconnect env ja w2 with
          | Raises e w3 => ((w, EvInit ja) :: t ++ [(w2, EvDisconnect ja)], Raised e w3)
          | Returns _ w3 =>
              ((w, EvInit ja) :: t ++ (w2, EvDisconnect ja) :: fst (job_loop env fuel ja w3),
               snd (job_loop env fuel ja w3))
          end
      | (t, Raised e w2) => ((w, EvInit ja) :: t, Raised e w2)
      | (t, OutOfFuel) => ((w, EvInit ja) :: t, OutOfFuel)
      end
  end.
Proof.
  simpl. unfold bind, call.
  destruct (init env ja w) as [[] w1|e w1]; simpl; [|reflexivity].
  destruct (wait_for_reboot env fuel ja w1) as [t [[] w2|e w2|]]; simpl; try reflexivity.
  destruct (disconnect env ja w2) as [[] w3|e w3]; simpl.
  - destruct (job_loop env fuel ja w3) as [t3 o3]. reflexivity.
  - reflexivity.
Qed.

Arguments wait_for_reboot : simpl never.
Arguments job_loop : simpl never.

(** The polls of one cycle are ordered, whatever came before them. *)
Lemma wait_for_reboot_chained (fuel : nat) (ja : JobAgent) :
  forall (w : World) (prev : event),
    prev = EvInit ja \/ prev = EvSleep 1 ->
    chained (loop_next ja) prev (events (fst (wait_for_reboot env fuel ja w))).
Proof.
  induction fuel as [|fuel IH]; intros w prev Hprev; [exact I|].
  rewrite wait_for_reboot_S.
  assert (Hpoll : forall r, loop_next ja prev (EvIsRebooting ja r))
    by (intros r; destruct Hprev as [->| ->]; constructor).
  destruct (isRebooting env ja w) as [[|] w1|e w1]; simpl.
  - split; [apply Hpoll|exact I].
  - split; [apply Hpoll|]. split; [constructor|]. apply IH. now right.
  - split; [apply Hpoll|exact I].
Qed.

(** The inner loop is left only by a poll that answered [True]. *)
Lemma wait_for_reboot_Ok (fuel : nat) (ja : JobAgent) :
  forall (w w' : World) (a : unit),
    snd (wait_for_reboot env fuel ja w) = Ok a w' ->
    exists t w0,
      fst (wait_for_reboot env fuel ja w) = t ++ [(w0, EvIsRebooting ja (Some true))] /\
      isRebooting env ja w0 = Returns true w'.
Proof.
  induction fuel as [|fuel IH]; intros w w' a; [discriminate|].
  rewrite wait_for_reboot_S.
  destruct (isRebooting env ja w) as [[|] w1|e w1] eqn:Hpoll; simpl; try discriminate.
  - intros [= <- <-]. now exists [], w.
  - intros H. destruct (IH _ _ _ H) as (t & w0 & -> & Hw0).
    now exists ((w, EvIsRebooting ja (Some false)) :: (w1, EvSleep 1) :: t), w0.
Qed.

Lemma wait_for_reboot_events (fuel : nat) (ja : JobAgent) :
  forall (w : World) (we : World * event),
    In we (fst (wait_for_reboot env fuel ja w)) ->
    (exists r, snd we = EvIsRebooting ja r) \/ snd we = EvSleep 1.
Proof.
  induction fuel as [|fuel IH]; intros w we; [intros []|].
  rewrite wait_for_reboot_S.
  destruct (isRebooting env ja w) as [[|] w1|e w1]; simpl.
  - intros [<-|[]]. left. now eexists.
  - intros [<-|[<-|H]]; [left; now eexists|now right|eauto].
  - intros [<-|[]]. left. now eexists.
Qed.

Lemma job_loop_events (fuel : nat) (ja : JobAgent) :
  forall (w : World) (we : World * event),
    In we (fst (job_loop env fuel ja w)) -> is_loop_event (snd we) = true.
Proof.
  induction fuel as [|fuel IH]; intros w we; [intros []|].
  rewrite job_loop_S.
  assert (Hwait : forall w1, In we (fst (wait_for_reboot env fuel ja w1)) ->
                             is_loop_event (snd we) = true).
  { intros w1 H. destruct (wait_for_reboot_events _ _ _ _ H) as [[r ->]| ->]; reflexivity. }
  destruct (init env ja w) as [[] w1|e w1]; simpl; [|intros [<-|[]]; reflexivity].
  specialize (Hwait w1).
  destruct (wait_for_reboot env fuel ja w1) as [t [[] w2|e w2|]]; simpl in *;
    [|intros [<-|H]; auto..].
  destruct (disconnect env ja w2) as [[] w3|e w3]; simpl;
    (intros [<-|H]; [reflexivity|]); apply in_app_or in H;
    destruct H as [H|[<-|H]]; eauto; try reflexivity; contradiction.
Qed.

(** The whole loop is ordered: it starts as if a disconnect had just
    happened. *)
Lemma job_loop_chained (fuel : nat) (ja : JobAgent) :
  forall w : World,
    chained (loop_next ja) (EvDisconnect ja) (events (fst (job_loop env fuel ja w))).
Proof.
  induction fuel as [|fuel IH]; intros w; [exact I|].
  rewrite job_loop_S.
  destruct (init env ja w) as [[] w1|e w1]; simpl; [|split; [constructor|exact I]].
  pose proof (wait_for_reboot_chained fuel ja w1 (EvInit ja) (or_introl eq_refl)) as Hchain.
  pose proof (wait_for_reboot_Ok fuel ja w1) as Hlast.
  destruct (wait_for_reboot env fuel ja w1) as [t [[] w2|e w2|]]; simpl in *;
    try (split; [constructor|exact Hchain]).
  destruct (Hlast _ _ eq_refl) as (t' & w0 & -> & _).
  unfold events in Hchain. rewrite map_app in Hchain. simpl in Hchain.
  destruct (disconnect env ja w2) as [[] w3|e w3]; simpl; (split; [constructor|]);
    unfold events; rewrite !map_app; simpl; rewrite <- app_assoc; simpl;
    (apply chained_extend; [exact Hchain|constructor|]).
  - apply IH.
  - exact I.
Qed.

(** The loop has no exit. *)
Lemma job_loop_never_returns (fuel : nat) (ja : JobAgent) :
  forall (w w' : World) (a : unit), snd (job_loop env fuel ja w) <> Ok a w'.
Proof.
  induction fuel as [|fuel IH]; intros w w' a; [discriminate|].
  rewrite job_loop_S.
  destruct (init env ja w) as [[] w1|e w1]; simpl; [|discriminate].
  destruct (wait_for_reboot env fuel ja w1) as [t [[] w2|e w2|]]; simpl; try discriminate.
  destruct (disconnect env ja w2) as [[] w3|e w3]; simpl; [apply IH|discriminate].
Qed.

End Loop.

Arguments wait_for_reboot : simpl never.
Arguments job_loop : simpl never.

Section LoopProgress.

Context {Ext : Type} (env : @Collaborators Ext).

Lemma job_loop_starts (fuel : nat) (ja : JobAgent) (w : World) :
  exists rest, fst (job_loop env (S fuel) ja w) = (w, EvInit ja) :: rest.
Proof.
  rewrite job_loop_S.
  destruct (init env ja w) as [[] w1|e w1]; [|now eexists].
  destruct (wait_for_reboot env fuel ja w1) as [t [[] w2|e w2|]]; try now eexists.
  destruct (disconnect env ja w2) as [[] w3|e w3]; now eexists.
Qed.

(** A disconnect that returns is directly followed by the next [init]. *)
Lemma job_loop_resumes (fuel : nat) (ja : JobAgent) :
  forall (w : World) (pre post : trace) (wd w' : World),
    fst (job_loop env fuel ja w) = pre ++ (wd, EvDisconnect ja) :: post ->
    disconnect env ja wd = Returns tt w' ->
    exists post', post = (w', EvInit ja) :: post'.
Proof.
  induction fuel as [|fuel IH]; intros w pre post wd w' Htr Hdis.
  - destruct pre; discriminate.
  - rewrite job_loop_S in Htr.
    destruct (init env ja w) as [[] w1|e w1].
    2:{ destruct pre as [|x [|y pre]]; discriminate. }
    destruct (wait_for_reboot env fuel ja w1) as [t o] eqn:Hwait.
    assert (Hnot : ~ In (wd, EvDisconnect ja) ((w, EvInit ja) :: t)).
    { intros [H|H]; [discriminate|].
      replace t with (fst (wait_for_reboot env fuel ja w1)) in H by now rewrite Hwait.
      apply wait_for_reboot_events in H. destruct H as [[r H]|H]; discriminate. }
    destruct o as [[] w2|e w2|];
      try (exfalso; apply Hnot; simpl in Htr; rewrite Htr; apply in_or_app; right; now left).
    destruct fuel as [|fuel']; [discriminate|].
    destruct (disconnect env ja w2) as [[] w3|e w3] eqn:Hd2; simpl in Htr;
      change ((w, EvInit ja) :: t ++ ?l) with (((w, EvInit ja) :: t) ++ l) in Htr;
      apply app_cut_right in Htr; try exact Hnot;
      destruct Htr as (pre2 & -> & Htr); destruct pre2 as [|x pre2]; simpl in Htr.
    + injection Htr as <- <-. rewrite Hd2 in Hdis. injection Hdis as <-.
      apply job_loop_starts.
    + injection Htr as _ Htr. eapply IH; eassumption.
    + injection Htr as <- _. congruence.
    + injection Htr as _ Htr. destruct pre2; discriminate.
Qed.

(** With collaborators that always return, a wait either ends or uses up
    its fuel, one poll at a time. *)
Lemma wait_for_reboot_cooperative (Hcoop : cooperative env) (fuel : nat) (ja : JobAgent) :
  forall w : World,
    (exists w', snd (wait_for_reboot env fuel ja w) = Ok tt w') \/
    (snd (wait_for_reboot env fuel ja w) = OutOfFuel /\
     fuel <= length (fst (wait_for_reboot env fuel ja w))).
Proof.
  destruct Hcoop as (_ & _ & _ & _ & Hpoll & _).
  induction fuel as [|fuel IH]; intros w.
  - right. split; [reflexivity|apply Nat.le_0_l].
  - rewrite wait_for_reboot_S.
    destruct (Hpoll ja w) as (b & w1 & ->). destruct b; simpl.
    + left. now eexists.
    + destruct (IH w1) as [H|[H Hlen]]; [now left|right].
      split; [exact H|]. lia.
Qed.

(** With collaborators that always return, the loop is still running
    whenever its fuel runs out, and has made at least as many calls. *)
Lemma job_loop_cooperative (Hcoop : cooperative env) (fuel : nat) (ja : JobAgent) :
  forall w : World,
    snd (job_loop env fuel ja w) = OutOfFuel /\
    fuel <= length (fst (job_loop env fuel ja w)).
Proof.
  pose proof Hcoop as (_ & _ & _ & Hinit & _ & Hdis).
  induction fuel as [|fuel IH]; intros w.
  - split; [reflexivity|apply Nat.le_0_l].
  - rewrite job_loop_S.
    destruct (Hinit ja w) as (w1 & ->).
    destruct (wait_for_reboot_cooperative Hcoop fuel ja w1) as [[w2 H]|[H Hlen]];
      destruct (wait_for_reboot env fuel ja w1) as [t o]; simpl in H; subst o.
    + destruct (Hdis ja w2) as (w3 & ->). simpl.
      destruct (IH w3) as [-> Hlen]. split; [reflexivity|].
      rewrite length_app. simpl. lia.
    + simpl in *. split; [reflexivity|lia].
Qed.

End LoopProgress.

(** ** The script, path by path *)

Section Script.

Context {Ext : Type} (env : @Collaborators Ext) (cfg : Settings).

(** Lines 96-101 and 113-118: the agent is constructed, then the loop
    runs. *)
Lemma agent_phase_eq (fuel : nat) (w : World) :
  bind (new_jobagent env cfg) (fun jobagent => job_loop env fuel jobagent) w =
  match DeviceJobAgent env (agent_arguments (thing_prefix cfg) (provisioner w)) w with
  | Returns _ w1 =>
      ((w, EvNewAgent (agent_arguments (thing_prefix cfg) (provisioner w)))
         :: fst (job_loop env fuel (agent_arguments (thing_prefix cfg) (provisioner w)) w1),
       snd (job_loop env fuel (agent_arguments (thing_prefix cfg) (provisioner w)) w1))
  | Raises e w1 =>
      ([(w, EvNewAgent (agent_arguments (thing_prefix cfg) (provisioner w)))], Raised e w1)
  end.
Proof.
  unfold new_jobagent, bind, get_world, call, ret. simpl.
  destruct (DeviceJobAgent env _ w) as [[] w1|e w1]; simpl; [|reflexivity].
  destruct (job_loop env fuel _ w1) as [t o]. reflexivity.
Qed.

Lemma run_provisioning_false (w : World) :
  run_provisioning env cfg false w =
  if can_open (fs w) (claim_cert_path cfg) then
    match get_official_certs env false w with
    | (payloads, Returns _ w1) =>
        ((w, EvOpen (claim_cert_path cfg)) :: (w, EvGetOfficialCerts false)
           :: callback_trace payloads,
         Ok tt w1)
    | (payloads, Raises IOError w1) =>
        ((w, EvOpen (claim_cert_path cfg)) :: (w, EvGetOfficialCerts false)
           :: callback_trace payloads
           ++ [(w1, EvPrint "### Bootstrap cert non-existent. Official cert may already be in place.")],
         Ok tt w1)
    | (payloads, Raises e w1) =>
        ((w, EvOpen (claim_cert_path cfg)) :: (w, EvGetOfficialCerts false)
           :: callback_trace payloads,
         Raised e w1)
    end
  else
    ([(w, EvOpen (claim_cert_path cfg));
      (w, EvPrint "### Bootstrap cert non-existent. Official cert may already be in place.")],
     Ok tt w).
Proof.
  unfold run_provisioning, try_except_IOError, with_open, bind, emit, get_world,
    provisioner_get_official_certs, get_official_certs_default_isRotation, print, raise.
  fold (claim_cert_path cfg). simpl.
  destruct (can_open (fs w) (claim_cert_path cfg)); [|reflexivity].
  destruct (get_official_certs env false w) as [payloads [[] w1|[| |name] w1]]; reflexivity.
Qed.

Lemma check_real_cert_absent (fuel : nat) (w : World) :
  listing_of cfg w = None ->
  check_real_cert env cfg fuel w =
  ([(w, EvPrint "Given directory doesn't exist")], Ok tt w).
Proof.
  unfold listing_of, check_real_cert, bind, get_world, os_path_exists, os_path_isdir.
  simpl. destruct (fs_lookup (fs w) (actua_cert_path cfg)) as [[c|l]|]; try discriminate;
    reflexivity.
Qed.

Lemma check_real_cert_first_boot (fuel : nat) (w : World) :
  listing_of cfg w = Some [] ->
  check_real_cert env cfg fuel w =
  match run_provisioning env cfg false w with
  | (t1, Ok _ w1) =>
      ((w, EvPrint "Actual cert Directory is empty") :: t1
         ++ (w1, EvPrint "Starting sensor") :: (w1, EvThreadStart)
         :: (w1, EvPrint "Sensor thread Started")
         :: (w1, EvPrint "Provisioning complete. Starting job agent to listen for jobs")
         :: fst (bind (new_jobagent env cfg) (fun jobagent => job_loop env fuel jobagent) w1),
       snd (bind (new_jobagent env cfg) (fun jobagent => job_loop env fuel jobagent) w1))
  | (t1, Raised e w1) => ((w, EvPrint "Actual cert Directory is empty") :: t1, Raised e w1)
  | (t1, OutOfFuel) => ((w, EvPrint "Actual cert Directory is empty") :: t1, OutOfFuel)
  end.
Proof.
  intros Hdir. unfold listing_of in Hdir.
  unfold check_real_cert.
  unfold bind at 1. unfold get_world at 1. cbv iota. cbn [app].
  unfold os_path_exists, os_path_isdir.
  destruct (fs_lookup (fs w) (actua_cert_path cfg)) as [[c|l]|] eqn:Hlook; try discriminate.
  injection Hdir as ->. cbn [andb].
  unfold bind at 1. unfold os_listdir at 1. rewrite Hlook. cbv iota. cbn [app].
  unfold bind at 1. unfold print at 1, emit at 1. cbv iota.
  unfold bind at 1.
  destruct (run_provisioning env cfg false w) as [t1 [[] w1|e w1|]]; try reflexivity.
  unfold bind at 1. unfold print at 1, emit at 1. cbv iota.
  unfold bind at 1. unfold sensor_simulator, bind at 1, emit at 1, print at 1, emit at 1.
  cbv iota. cbn [app].
  unfold bind at 1. unfold print at 1, emit at 1. cbv iota.
  destruct (bind (new_jobagent env cfg) (fun jobagent => job_loop env fuel jobagent) w1)
    as [t2 o2].
  reflexivity.
Qed.

Lemma check_real_cert_provisioned (fuel : nat) (w : World) (x : string) (l : list string) :
  listing_of cfg w = Some (x :: l) ->
  check_real_cert env cfg fuel w =
  match filter is_crt (x :: l) with
  | [] =>
      ([(with_provisioner (Provisioner.set_isFirst false) w,
         EvPrint "Directory is not empty so actual cert downloaded")],
       Raised IndexError (with_provisioner (Provisioner.set_isFirst false) w))
  | cert :: _ =>
      match filter is_key (x :: l) with
      | [] =>
          ([(with_provisioner (Provisioner.set_isFirst false) w,
             EvPrint "Directory is not empty so actual cert downloaded")],
           Raised IndexError
             (with_provisioner (Provisioner.set_new_cert_name cert)
                (with_provisioner (Provisioner.set_isFirst false) w)))
      | key :: _ =>
          match test_restricted_topic env "test message" (selected_world w cert key) with
          | Raises e w2 =>
              ([(with_provisioner (Provisioner.set_isFirst false) w,
                 EvPrint "Directory is not empty so actual cert downloaded");
                (selected_world w cert key, EvTestRestrictedTopic "test message")],
               Raised e w2)
          | Returns _ w2 =>
              ((with_provisioner (Provisioner.set_isFirst false) w,
                EvPrint "Directory is not empty so actual cert downloaded")
                 :: (selected_world w cert key, EvTestRestrictedTopic "test message")
                 :: (w2, EvPrint "Starting sensor") :: (w2, EvThreadStart)
                 :: (w2, EvPrint "Sensor thread Started")
                 :: (w2, EvPrint "Starting job agent to listen for jobs")
                 :: fst (bind (new_jobagent env cfg)
                           (fun jobagent => job_loop env fuel jobagent) w2),
               snd (bind (new_jobagent env cfg)
                      (fun jobagent => job_loop env fuel jobagent) w2))
          end
      end
  end.
Proof.
  intros Hdir. unfold listing_of in Hdir.
  destruct (fs_lookup (fs w) (actua_cert_path cfg)) as [[c|l']|] eqn:Hlook; try discriminate.
  injection Hdir as ->.
  unfold check_real_cert, is_crt, is_key, selected_world.
  remember (bind (new_jobagent env cfg) (fun jobagent => job_loop env fuel jobagent))
    as phase eqn:Hphase.
  unfold bind at 1. unfold get_world at 1. cbv iota. cbn [app].
  unfold os_path_exists, os_path_isdir. rewrite Hlook. cbn [andb].
  unfold bind at 1. unfold os_listdir at 1. rewrite Hlook. cbv iota. cbn [app].
  remember (x :: l) as listing eqn:Hlisting. clear Hlisting.
  unfold bind, modify, print, emit, os_listdir, index0, call, sensor_simulator, raise, ret.
  simpl. rewrite Hlook.
  destruct (filter (fun filename => endswith filename ".crt") listing) as [|cert crts];
    [reflexivity|].
  simpl. rewrite Hlook.
  destruct (filter (fun filename => endswith filename ".key") listing) as [|key keys];
    [reflexivity|].
  simpl.
  destruct (test_restricted_topic env "test message" _) as [[] w2|e w2]; [|reflexivity].
  simpl. destruct (phase w2) as [t o]. reflexivity.
Qed.

End Script.

(** ** What happens before the loop, and what the loop adds *)

Section Structure.

Context {Ext : Type} (env : @Collaborators Ext) (cfg : Settings).

(** Closes [Forall (script_event cfg w)] on an explicit list of events. *)
Ltac prefix_ok :=
  repeat (apply Forall_cons; [first [exact I | exact eq_refl | assumption]|]);
  try apply Forall_nil.

Lemma callback_trace_prints (payloads : list (World * string)) (w : @World Ext) :
  Forall (script_event cfg w) (callback_trace payloads).
Proof.
  unfold callback_trace. apply Forall_forall. intros we Hin.
  apply in_flat_map in Hin. destruct Hin as ([w' payload] & _ & [<-|[]]).
  exact I.
Qed.

Lemma run_provisioning_script_events (w : World) :
  listing_of cfg w = Some [] ->
  Forall (script_event cfg w) (fst (run_provisioning env cfg false w)).
Proof.
  intros Hdir. rewrite run_provisioning_false.
  destruct (can_open (fs w) (claim_cert_path cfg)) eqn:Hopen.
  - destruct (get_official_certs env false w) as [payloads [[] w1|[| |name] w1]]; simpl;
      repeat (apply Forall_cons; [unfold script_event; simpl; auto|]);
      try apply Forall_app; auto using callback_trace_prints.
    split; [apply callback_trace_prints|].
    repeat constructor.
  - simpl. repeat (apply Forall_cons; [unfold script_event; simpl; auto|]). constructor.
Qed.

(** A run that finds the directory either stops on an exception before
    any agent call, or gets to the loop and stays in it. *)
Lemma check_real_cert_structure (w : World) :
  listing_of cfg w <> None ->
  exists P : trace,
    Forall (script_event cfg w) P /\
    ((exists e w', forall fuel, check_real_cert env cfg fuel w = (P, Raised e w')) \/
     (exists P' wa wl,
        P = P' ++ [(wa, EvNewAgent (agent_arguments (thing_prefix cfg) (provisioner wa)))] /\
        DeviceJobAgent env (agent_arguments (thing_prefix cfg) (provisioner wa)) wa
          = Returns tt wl /\
        forall fuel,
          check_real_cert env cfg fuel w =
          (P ++ fst (job_loop env fuel (agent_arguments (thing_prefix cfg) (provisioner wa)) wl),
           snd (job_loop env fuel (agent_arguments (thing_prefix cfg) (provisioner wa)) wl)))).
Proof.
  intros Hdir.
  destruct (listing_of cfg w) as [[|x l]|] eqn:Hlist; [| |congruence]; clear Hdir.
  - pose proof (run_provisioning_script_events w Hlist) as Hprov.
    destruct (run_provisioning env cfg false w) as [t1 [[] w1|e w1|]] eqn:Hrun; simpl in Hprov.
    + destruct (DeviceJobAgent env (agent_arguments (thing_prefix cfg) (provisioner w1)) w1)
        as [[] wl|e wl] eqn:Hnew.
      * eexists. split; [|right; exists
          ((w, EvPrint "Actual cert Directory is empty") :: t1
             ++ [(w1, EvPrint "Starting sensor"); (w1, EvThreadStart);
                 (w1, EvPrint "Sensor thread Started");
                 (w1, EvPrint "Provisioning complete. Starting job agent to listen for jobs")]),
          w1, wl; split; [reflexivity|split; [exact Hnew|]]].
        -- apply Forall_app. split; [|repeat constructor].
           constructor; [exact I|]. apply Forall_app. split; [exact Hprov|].
           prefix_ok.
        -- intros fuel. rewrite (check_real_cert_first_boot env cfg fuel w Hlist), Hrun.
           rewrite agent_phase_eq, Hnew. simpl.
           f_equal. f_equal. rewrite <- !app_assoc. reflexivity.
      * exists ((w, EvPrint "Actual cert Directory is empty") :: t1
             ++ [(w1, EvPrint "Starting sensor"); (w1, EvThreadStart);
                 (w1, EvPrint "Sensor thread Started");
                 (w1, EvPrint "Provisioning complete. Starting job agent to listen for jobs");
                 (w1, EvNewAgent (agent_arguments (thing_prefix cfg) (provisioner w1)))]).
        split.
        -- constructor; [exact I|]. apply Forall_app. split; [exact Hprov|].
           prefix_ok.
        -- left. exists e, wl. intros fuel.
           rewrite (check_real_cert_first_boot env cfg fuel w Hlist), Hrun.
           rewrite agent_phase_eq, Hnew. reflexivity.
    + exists ((w, EvPrint "Actual cert Directory is empty") :: t1).
      split; [constructor; [exact I|exact Hprov]|].
      left. exists e, w1. intros fuel.
      now rewrite (check_real_cert_first_boot env cfg fuel w Hlist), Hrun.
    + exfalso. revert Hrun. rewrite run_provisioning_false.
      destruct (can_open (fs w) (claim_cert_path cfg)); [|discriminate].
      destruct (get_official_certs env false w) as [payloads [[] w1|[| |name] w1]];
        discriminate.
  - pose proof (fun fuel => check_real_cert_provisioned env cfg fuel w x l Hlist) as Hrun.
    destruct (filter is_crt (x :: l)) as [|cert crts] eqn:Hcrt.
    { eexists. split; [|left; eexists; eexists; exact Hrun]. prefix_ok. }
    destruct (filter is_key (x :: l)) as [|key keys] eqn:Hkey.
    { eexists. split; [|left; eexists; eexists; exact Hrun]. prefix_ok. }
    assert (Hprobe : script_event cfg w
                       (selected_world w cert key, EvTestRestrictedTopic "test message")).
    { split; [reflexivity|]. exists (x :: l), cert, crts, key, keys.
      repeat split; auto. discriminate. }
    destruct (test_restricted_topic env "test message" (selected_world w cert key))
      as [[] w2|e w2].
    2:{ eexists. split; [|left; eexists; eexists; exact Hrun]. prefix_ok. }
    destruct (DeviceJobAgent env (agent_arguments (thing_prefix cfg) (provisioner w2)) w2)
      as [[] wl|e wl] eqn:Hnew.
    + eexists. split; [|right; exists
        [(with_provisioner (Provisioner.set_isFirst false) w,
          EvPrint "Directory is not empty so actual cert downloaded");
         (selected_world w cert key, EvTestRestrictedTopic "test message");
         (w2, EvPrint "Starting sensor"); (w2, EvThreadStart);
         (w2, EvPrint "Sensor thread Started");
         (w2, EvPrint "Starting job agent to listen for jobs")],
        w2, wl; split; [reflexivity|split; [exact Hnew|]]].
      * prefix_ok.
      * intros fuel. rewrite Hrun, agent_phase_eq, Hnew. reflexivity.
    + eexists. split; [|left; exists e, wl; intros fuel;
                         rewrite Hrun, agent_phase_eq, Hnew; reflexivity].
      prefix_ok.
Qed.

End Structure.

(** ** Selecting from a listing *)

Lemma filter_first_match (p : string -> bool) (l : list string) (x : string) :
  first_match p l x <-> exists rest, filter p l = x :: rest.
Proof.
  split.
  - intros (before & after & -> & Hx & Hbefore).
    induction before as [|y before IH]; simpl.
    + rewrite Hx. now eexists.
    + rewrite (Hbefore y) by now left. apply IH. intros z Hz. apply Hbefore. now right.
  - intros [rest Hfilter]. induction l as [|y l IH]; [discriminate|].
    simpl in Hfilter. destruct (p y) eqn:Hy.
    + injection Hfilter as -> _. exists [], l. repeat split; [exact Hy|intros z []].
    + destruct (IH Hfilter) as (before & after & -> & Hx & Hbefore).
      exists (y :: before), after. repeat split; [exact Hx|].
      intros z [<-|Hz]; auto.
Qed.

Lemma first_match_unique (p : string -> bool) (l : list string) (x y : string) :
  first_match p l x -> first_match p l y -> x = y.
Proof.
  rewrite !filter_first_match. intros [rx Hx] [ry Hy]. congruence.
Qed.

Lemma filter_nil_existsb (p : string -> bool) (l : list string) :
  filter p l = [] <-> existsb p l = false.
Proof.
  induction l as [|y l IH]; simpl; [tauto|].
  destruct (p y); simpl; [split; discriminate|exact IH].
Qed.

(** ** Paths and file names *)



(** ** The certificate lifecycle *)

Section Lifecycle.

Context {Ext : Type} (env : @Collaborators Ext) (cfg : Settings).

(** Every recorded action is one the script may do before the loop, or a
    call of the loop. *)
Lemma check_real_cert_events (fuel : nat) (w : World) (we : World * event) :
  In we (fst (check_real_cert env cfg fuel w)) ->
  script_event cfg w we \/ is_loop_event (snd we) = true.
Proof.
  destruct (listing_of cfg w) as [listing|] eqn:Hlist.
  - destruct (check_real_cert_structure env cfg w) as (P & HP & Hrun);
      [congruence|].
    rewrite Forall_forall in HP.
    destruct Hrun as [(e & w' & Hrun)|(P' & wa & wl & _ & _ & Hrun)];
      rewrite Hrun; simpl; [auto|].
    intros Hin. apply in_app_or in Hin. destruct Hin as [Hin|Hin]; [auto|].
    right. eapply job_loop_events, Hin.
  - rewrite check_real_cert_absent by exact Hlist.
    intros [<-|[]]. left. exact I.
Qed.

(** C1, as amended.  When no production identity is stored,
    [check_real_cert] calls [get_official_certs] with [isRotation] false
    exactly when the directory of production certificates exists and the
    claim certificate can be opened; with the directory missing, or the
    claim certificate missing, no provisioning call is made.  It never
    asks for a rotation. *)
Theorem C1_provisioning_call_on_first_boot (fuel : nat) (w : World) :
  no_production_identity cfg w ->
  (provisioning_invoked false (fst (check_real_cert env cfg fuel w)) <->
   os_path_isdir (fs w) (actua_cert_path cfg) = true /\
   can_open (fs w) (claim_cert_path cfg) = true) /\
  ~ provisioning_invoked true (fst (check_real_cert env cfg fuel w)).
Proof.
  intros Hnone. split; [split|].
  - intros [w' Hin]. apply check_real_cert_events in Hin.
    destruct Hin as [(_ & _ & Hdir & Hopen)|Hloop]; [split; [|exact Hopen]|discriminate].
    unfold listing_of in Hdir. unfold os_path_isdir.
    destruct (fs_lookup (fs w) (actua_cert_path cfg)) as [[c|l]|]; congruence.
  - intros [Hisdir Hopen]. exists w.
    assert (Hdir : listing_of cfg w = Some []).
    { destruct Hnone as [Hnone|Hnone]; [|exact Hnone].
      unfold listing_of in Hnone. unfold os_path_isdir in Hisdir.
      destruct (fs_lookup (fs w) (actua_cert_path cfg)) as [[c|l]|]; congruence. }
    rewrite (check_real_cert_first_boot env cfg fuel w Hdir), run_provisioning_false, Hopen.
    destruct (get_official_certs env false w) as [payloads [[] w1|[| |name] w1]]; simpl;
      auto.
  - intros [w' Hin]. apply check_real_cert_events in Hin.
    destruct Hin as [(Hrot & _)|Hloop]; discriminate.
Qed.


(** C3.  When the directory of production certificates is not empty,
    [check_real_cert] never calls [get_official_certs], with either value
    of [isRotation]: a run that finds the identity in place makes no
    provisioning exchange. *)
Theorem C3_no_provisioning_when_provisioned (fuel : nat) (w : World)
    (x : string) (l : list string) :
  listing_of cfg w = Some (x :: l) ->
  forall isRotation,
    ~ provisioning_invoked isRotation (fst (check_real_cert env cfg fuel w)).
Proof.
  intros Hdir isRotation [w' Hin]. apply check_real_cert_events in Hin.
  destruct Hin as [(_ & _ & Hempty & _)|Hloop]; [congruence|discriminate].
Qed.


(** C5.  Without the rotation flag, [run_provisioning] calls
    [get_official_certs] only when the claim certificate can be opened,
    and does call it then; when opening it raises [IOError], there is no
    provisioning call: the function reports the condition and returns
    normally. *)
Theorem C5_claim_certificate_guard (w : World) :
  (forall isRotation,
     provisioning_invoked isRotation (fst (run_provisioning env cfg false w)) ->
     can_open (fs w) (claim_cert_path cfg) = true) /\
  (can_open (fs w) (claim_cert_path cfg) = true ->
   provisioning_invoked false (fst (run_provisioning env cfg false w))) /\
  (can_open (fs w) (claim_cert_path cfg) = false ->
   run_provisioning env cfg false w =
   ([(w, EvOpen (claim_cert_path cfg));
     (w, EvPrint "### Bootstrap cert non-existent. Official cert may already be in place.")],
    Ok tt w)).
Proof.
  rewrite run_provisioning_false.
  destruct (can_open (fs w) (claim_cert_path cfg)); repeat split; try discriminate.
  - intros _. exists w.
    destruct (get_official_certs env false w) as [payloads [[] w1|[| |name] w1]]; simpl;
      auto.
  - intros isRotation [w' [Hin|[Hin|[]]]]; discriminate.
Qed.

End Lifecycle.

(** ** Discovery of the stored identity *)

Section Discovery.

Context {Ext : Type} (env : @Collaborators Ext) (cfg : Settings).

(** The probe runs in the world the selection leaves. *)
Lemma probe_world (fuel : nat) (w wp : World) (message : string) :
  In (wp, EvTestRestrictedTopic message) (fst (check_real_cert env cfg fuel w)) ->
  exists listing cert key,
    listing_of cfg w = Some listing /\
    first_match is_crt listing cert /\ first_match is_key listing key /\
    wp = selected_world w cert key.
Proof.
  intros Hin. apply check_real_cert_events in Hin.
  destruct Hin as [Hev|Hloop]; [|discriminate].
  destruct Hev as (_ & listing & cert & crts & key & keys & Hdir & _ & Hcrt & Hkey & Hw).
  exists listing, cert, key. rewrite !filter_first_match. simpl in Hw. eauto 6.
Qed.

(** C6, as amended.  When the directory lists a certificate and a key,
    [check_real_cert] runs the connectivity probe
    [test_restricted_topic("test message")] with the provisioner's
    [new_cert_name] and [new_key_name] set to the first such entries.  It
    decides this from the listing alone, the contents of the files play no
    part; and there is no fallback: an exception of the probe leaves
    [check_real_cert], and no provisioning call is made on this path. *)
Theorem C6_probe_without_fallback (fuel : nat) (w : World) (listing : list string)
    (cert key : string) :
  listing_of cfg w = Some listing ->
  first_match is_crt listing cert ->
  first_match is_key listing key ->
  Provisioner.new_cert_name (provisioner (selected_world w cert key)) = cert /\
  Provisioner.new_key_name (provisioner (selected_world w cert key)) = key /\
  (exists post,
     fst (check_real_cert env cfg fuel w) =
     (with_provisioner (Provisioner.set_isFirst false) w,
      EvPrint "Directory is not empty so actual cert downloaded")
       :: (selected_world w cert key, EvTestRestrictedTopic "test message")
       :: post) /\
  (forall e w2,
     test_restricted_topic env "test message" (selected_world w cert key) = Raises e w2 ->
     check_real_cert env cfg fuel w =
     ([(with_provisioner (Provisioner.set_isFirst false) w,
        EvPrint "Directory is not empty so actual cert downloaded");
       (selected_world w cert key, EvTestRestrictedTopic "test message")],
      Raised e w2)) /\
  (forall isRotation,
     ~ provisioning_invoked isRotation (fst (check_real_cert env cfg fuel w))).
Proof.
  intros Hdir Hcrt Hkey.
  assert (Hne : exists x l, listing = x :: l).
  { destruct Hcrt as (before & after & -> & _). destruct before; simpl; eauto. }
  destruct Hne as (x & l & ->).
  apply filter_first_match in Hcrt, Hkey.
  destruct Hcrt as [crts Hcrt], Hkey as [keys Hkey].
  split; [reflexivity|]. split; [reflexivity|].
  split; [|split].
  - rewrite (check_real_cert_provisioned env cfg fuel w x l Hdir), Hcrt, Hkey.
    destruct (test_restricted_topic env "test message" _) as [[] w2|e w2]; now eexists.
  - intros e w2 Hprobe.
    now rewrite (check_real_cert_provisioned env cfg fuel w x l Hdir), Hcrt, Hkey, Hprobe.
  - intros isRotation [w' Hin]. apply check_real_cert_events in Hin.
    destruct Hin as [(_ & _ & Hempty & _)|Hloop]; [congruence|discriminate].
Qed.

(** C9.  In the branch of a non-empty directory the two [files[0]] are in
    bounds exactly when the listing has an entry ending in [.crt] and one
    ending in [.key]: then the run gets to the connectivity probe;
    otherwise it raises [IndexError] right after its first message, before
    any collaborator is called. *)
Theorem C9_index_needs_certificate_and_key (fuel : nat) (w : World)
    (x : string) (l : list string) :
  listing_of cfg w = Some (x :: l) ->
  (existsb is_crt (x :: l) = true /\ existsb is_key (x :: l) = true ->
   exists cert key post,
     first_match is_crt (x :: l) cert /\ first_match is_key (x :: l) key /\
     fst (check_real_cert env cfg fuel w) =
     (with_provisioner (Provisioner.set_isFirst false) w,
      EvPrint "Directory is not empty so actual cert downloaded")
       :: (selected_world w cert key, EvTestRestrictedTopic "test message")
       :: post) /\
  (existsb is_crt (x :: l) = false \/ existsb is_key (x :: l) = false ->
   exists w',
     check_real_cert env cfg fuel w =
     ([(with_provisioner (Provisioner.set_isFirst false) w,
        EvPrint "Directory is not empty so actual cert downloaded")],
      Raised IndexError w')).
Proof.
  intros Hdir.
  rewrite (check_real_cert_provisioned env cfg fuel w x l Hdir).
  rewrite <- !filter_nil_existsb.
  assert (Hcases : forall p, (existsb p (x :: l) = true <-> filter p (x :: l) <> [])).
  { intros p. rewrite filter_nil_existsb. destruct (existsb p (x :: l)); split; congruence. }
  rewrite !Hcases.
  pose proof (filter_first_match is_crt (x :: l)) as Hcrt.
  pose proof (filter_first_match is_key (x :: l)) as Hkey.
  destruct (filter is_crt (x :: l)) as [|cert crts].
  { split; [intros [[] _]; reflexivity|intros _; now eexists]. }
  destruct (filter is_key (x :: l)) as [|key keys].
  { split; [intros [_ []]; reflexivity|intros _; now eexists]. }
  split; [|intros [|]; discriminate].
  intros _. exists cert, key.
  destruct (test_restricted_topic env "test message" _) as [[] w2|e w2];
    eexists; (split; [apply Hcrt; now eexists|split; [apply Hkey; now eexists|reflexivity]]).
Qed.

End Discovery.

(** C7.  On the path of a provisioned device, [new_cert_name] is the first
    entry of the listing that ends in [.crt] and [new_key_name] the first
    that ends in [.key]; two runs over equal listings select the same
    names; two listings of the same files in different orders can select
    different certificates; and the key is chosen without regard to the
    certificate, so the two need not belong together. *)
Theorem C7_first_match_selection :
  (forall (Ext : Type) (env : @Collaborators Ext) (cfg : Settings)
          (fuel : nat) (w wp : World) (listing : list string) (message : string),
     listing_of cfg w = Some listing ->
     In (wp, EvTestRestrictedTopic message) (fst (check_real_cert env cfg fuel w)) ->
     first_match is_crt listing (Provisioner.new_cert_name (provisioner wp)) /\
     first_match is_key listing (Provisioner.new_key_name (provisioner wp))) /\
  (forall (Ext : Type) (env1 env2 : @Collaborators Ext) (cfg : Settings)
          (fuel1 fuel2 : nat) (w1 w2 wp1 wp2 : World) (m1 m2 : string),
     listing_of cfg w1 = listing_of cfg w2 ->
     In (wp1, EvTestRestrictedTopic m1) (fst (check_real_cert env1 cfg fuel1 w1)) ->
     In (wp2, EvTestRestrictedTopic m2) (fst (check_real_cert env2 cfg fuel2 w2)) ->
     Provisioner.new_cert_name (provisioner wp1) = Provisioner.new_cert_name (provisioner wp2) /\
     Provisioner.new_key_name (provisioner wp1) = Provisioner.new_key_name (provisioner wp2)) /\
  (exists la lb wpa wpb,
     listing_of Demo.settings Demo.rotated_ab = Some la /\
     listing_of Demo.settings Demo.rotated_ba = Some lb /\
     Permutation la lb /\
     In (wpa, EvTestRestrictedTopic "test message")
        (fst (check_real_cert Demo.collaborators Demo.settings 1 Demo.rotated_ab)) /\
     In (wpb, EvTestRestrictedTopic "test message")
        (fst (check_real_cert Demo.collaborators Demo.settings 1 Demo.rotated_ba)) /\
     Provisioner.new_cert_name (provisioner wpa) = "a.crt" /\
     Provisioner.new_cert_name (provisioner wpb) = "b.crt") /\
  (exists listing wp,
     listing_of Demo.settings Demo.rotated_mixed = Some listing /\
     In "a.key" listing /\
     In (wp, EvTestRestrictedTopic "test message")
        (fst (check_real_cert Demo.collaborators Demo.settings 1 Demo.rotated_mixed)) /\
     Provisioner.new_cert_name (provisioner wp) = "a.crt" /\
     Provisioner.new_key_name (provisioner wp) = "b.key").
Proof.
  assert (Hsel : forall (Ext : Type) (env : @Collaborators Ext) (cfg : Settings)
                        (fuel : nat) (w wp : World) (listing : list string) (message : string),
             listing_of cfg w = Some listing ->
             In (wp, EvTestRestrictedTopic message) (fst (check_real_cert env cfg fuel w)) ->
             first_match is_crt listing (Provisioner.new_cert_name (provisioner wp)) /\
             first_match is_key listing (Provisioner.new_key_name (provisioner wp))).
  { intros Ext env cfg fuel w wp listing message Hdir Hin.
    apply probe_world in Hin.
    destruct Hin as (listing' & cert & key & Hdir' & Hcrt & Hkey & ->).
    assert (listing' = listing) as -> by congruence. now split. }
  split; [exact Hsel|]. split; [|split].
  - intros Ext env1 env2 cfg fuel1 fuel2 w1 w2 wp1 wp2 m1 m2 Hsame Hin1 Hin2.
    destruct (listing_of cfg w2) as [listing|] eqn:Hdir2.
    + destruct (Hsel _ _ _ _ _ _ _ _ Hsame Hin1) as [Hc1 Hk1].
      destruct (Hsel _ _ _ _ _ _ _ _ Hdir2 Hin2) as [Hc2 Hk2].
      split; eapply first_match_unique; eassumption.
    + apply probe_world in Hin2. destruct Hin2 as (? & ? & ? & Hdir & _). congruence.
  - exists ["a.crt"; "b.crt"; "a.key"; "b.key"], ["b.crt"; "a.crt"; "a.key"; "b.key"].
    eexists. eexists.
    split; [reflexivity|]. split; [reflexivity|]. split; [apply perm_swap|].
    split; [right; left; reflexivity|]. split; [right; left; reflexivity|].
    split; reflexivity.
  - exists ["a.crt"; "b.key"; "b.crt"; "a.key"]. eexists.
    split; [reflexivity|]. split; [simpl; tauto|].
    split; [right; left; reflexivity|]. split; reflexivity.
Qed.

(** ** The order of the agent calls in a run *)

Section Temporal.

Context {Ext : Type} (env : @Collaborators Ext) (cfg : Settings).

Lemma script_event_not_loop (w : @World Ext) (we : @World Ext * event) :
  script_event cfg w we -> is_loop_event (snd we) = false.
Proof.
  unfold script_event. destruct (snd we); simpl; tauto.
Qed.

(** A run is a prefix without agent calls, the same for every fuel, and
    then, if an agent was constructed, the loop on that agent. *)
Lemma check_real_cert_loop_split (w : World) :
  exists (P : trace) (ja : JobAgent),
    (forall we, In we P -> is_loop_event (snd we) = false) /\
    ((forall fuel, exists o,
        check_real_cert env cfg fuel w = (P, o) /\ o <> OutOfFuel) \/
     (exists P' wa wl,
        P = P' ++ [(wa, EvNewAgent ja)] /\
        forall fuel,
          check_real_cert env cfg fuel w =
          (P ++ fst (job_loop env fuel ja wl), snd (job_loop env fuel ja wl)))).
Proof.
  destruct (listing_of cfg w) as [listing|] eqn:Hdir.
  - destruct (check_real_cert_structure env cfg w) as (P & HP & Hrun); [congruence|].
    rewrite Forall_forall in HP.
    assert (Hnon : forall we, In we P -> is_loop_event (snd we) = false)
      by (intros we Hin; eapply script_event_not_loop, HP, Hin).
    destruct Hrun as [(e & w' & Hrun)|(P' & wa & wl & HP' & _ & Hrun)].
    + exists P, (agent_arguments (thing_prefix cfg) (provisioner w)).
      split; [exact Hnon|]. left. intros fuel. eexists. split; [apply Hrun|discriminate].
    + exists P, (agent_arguments (thing_prefix cfg) (provisioner wa)).
      split; [exact Hnon|]. right. now exists P', wa, wl.
  - exists [(w, EvPrint "Given directory doesn't exist")],
      (agent_arguments (thing_prefix cfg) (provisioner w)).
    split; [intros we [<-|[]]; reflexivity|].
    left. intros fuel. eexists. split; [now apply check_real_cert_absent|discriminate].
Qed.

Lemma chained_impl {A : Type} (R R' : A -> A -> Prop) (l : list A) (prev : A) :
  (forall a b, R a b -> R' a b) -> chained R prev l -> chained R' prev l.
Proof.
  intros Himpl. revert prev. induction l as [|x l IH]; intros prev; simpl; [tauto|].
  intros [H1 H2]. split; auto.
Qed.

Lemma chained_before_loop (ja : JobAgent) (l : list event) (prev : event) :
  is_loop_event prev = false ->
  (forall e, In e l -> is_loop_event e = false) ->
  chained (script_next ja) prev l.
Proof.
  revert prev. induction l as [|x l IH]; intros prev Hprev Hl; simpl; [exact I|].
  assert (Hx : is_loop_event x = false) by (apply Hl; now left).
  split; [right; auto|]. apply IH; [exact Hx|]. intros e He. apply Hl. now right.
Qed.

(** The events of a whole run are in order; [EvPrint ""] stands before
    the first. *)
Lemma check_real_cert_chained (fuel : nat) (w : World) :
  exists ja,
    chained (script_next ja) (EvPrint "") (events (fst (check_real_cert env cfg fuel w))).
Proof.
  destruct (check_real_cert_loop_split w) as (P & ja & Hnon & Hrun).
  exists ja.
  assert (Hpre : forall e, In e (events P) -> is_loop_event e = false).
  { intros e Hin. unfold events in Hin. apply in_map_iff in Hin.
    destruct Hin as (we & <- & Hin). now apply Hnon. }
  destruct Hrun as [Hrun|(P' & wa & wl & HP & Hrun)].
  - destruct (Hrun fuel) as (o & -> & _). simpl.
    now apply chained_before_loop.
  - rewrite Hrun. simpl. unfold events in *. rewrite map_app.
    apply chained_app. split; [now apply chained_before_loop|].
    rewrite HP, map_app. simpl. rewrite last_last.
    pose proof (job_loop_chained env fuel ja wl) as Hloop. unfold events in Hloop.
    destruct (map snd (fst (job_loop env fuel ja wl))) as [|e l]; [exact I|].
    destruct Hloop as [Hfirst Hrest]. split.
    + inversion Hfirst; subst. right. split; [reflexivity|]. now right.
    + eapply chained_impl; [|exact Hrest]. intros a b Hab. now left.
Qed.

Lemma job_loop_disconnect_agent (fuel : nat) (ja ja' : JobAgent) (w wd : World) :
  In (wd, EvDisconnect ja') (fst (job_loop env fuel ja w)) -> ja' = ja.
Proof.
  intros Hin. apply in_split in Hin. destruct Hin as (pre & post & Heq).
  pose proof (job_loop_chained env fuel ja w) as Hloop.
  unfold events in Hloop. rewrite Heq, map_app in Hloop. simpl in Hloop.
  apply chained_middle in Hloop. destruct Hloop as [Hstep _].
  inversion Hstep. reflexivity.
Qed.

(** C8.  In every run the agent calls follow the order of the loop: a
    [disconnect] comes directly after an [isRebooting] that answered true;
    an [isRebooting] comes directly after the [init] of its cycle, or
    after the sleep that follows a poll answering false; an [init] comes
    directly after the construction of the agent or after a [disconnect];
    what follows a [disconnect] is an [init]; and a [disconnect] that
    returns is followed by that [init], made in the world the
    [disconnect] left. *)
Theorem C8_job_loop_order (fuel : nat) (w : World) :
  (forall pre ja post,
     events (fst (check_real_cert env cfg fuel w)) = pre ++ EvDisconnect ja :: post ->
     exists pre', pre = pre' ++ [EvIsRebooting ja (Some true)]) /\
  (forall pre ja answer post,
     events (fst (check_real_cert env cfg fuel w)) = pre ++ EvIsRebooting ja answer :: post ->
     exists pre',
       pre = pre' ++ [EvInit ja] \/
       pre = pre' ++ [EvIsRebooting ja (Some false); EvSleep 1]) /\
  (forall pre ja post,
     events (fst (check_real_cert env cfg fuel w)) = pre ++ EvInit ja :: post ->
     exists pre', pre = pre' ++ [EvNewAgent ja] \/ pre = pre' ++ [EvDisconnect ja]) /\
  (forall pre ja e post,
     events (fst (check_real_cert env cfg fuel w)) = pre ++ EvDisconnect ja :: e :: post ->
     e = EvInit ja) /\
  (forall pre wd ja post w',
     fst (check_real_cert env cfg fuel w) = pre ++ (wd, EvDisconnect ja) :: post ->
     disconnect env ja wd = Returns tt w' ->
     exists post', post = (w', EvInit ja) :: post').
Proof.
  destruct (check_real_cert_chained fuel w) as [ja0 Hchain].
  repeat split.
  - intros pre ja post Heq. rewrite Heq in Hchain.
    apply chained_middle in Hchain. destruct Hchain as [[Hstep|[_ [|[_ ]]]] _];
      try discriminate.
    inversion Hstep as [| | |Hlast|]; subst.
    symmetry in Hlast. apply last_snoc_inv in Hlast; [exact Hlast|discriminate].
  - intros pre ja answer post Heq. pose proof Hchain as Hchain2.
    rewrite Heq in Hchain.
    apply chained_middle in Hchain. destruct Hchain as [[Hstep|[_ [|[_ ]]]] _];
      try discriminate.
    inversion Hstep; subst;
      match goal with
      | H : _ = last pre _ |- _ =>
          symmetry in H; apply last_snoc_inv in H; [|discriminate];
          destruct H as [pre' ->]
      end.
    + exists pre'. now left.
    + rewrite <- app_assoc in Heq. simpl in Heq. rewrite Heq in Hchain2.
      apply chained_middle in Hchain2. destruct Hchain2 as [[Hstep2|[_ [|[_ ]]]] _];
        try discriminate.
      inversion Hstep2; subst.
      match goal with
      | H : _ = last pre' _ |- _ =>
          symmetry in H; apply last_snoc_inv in H; [|discriminate];
          destruct H as [pre'' ->]
      end.
      exists pre''. right. now rewrite <- app_assoc.
  - intros pre ja post Heq. rewrite Heq in Hchain.
    apply chained_middle in Hchain. destruct Hchain as [[Hstep|[_ [|[Hlast [= ->]]]]] _];
      try discriminate.
    + inversion Hstep as [| | | |Hlast]; subst.
      symmetry in Hlast. apply last_snoc_inv in Hlast; [|discriminate].
      destruct Hlast as [pre' ->]. exists pre'. now right.
    + apply last_snoc_inv in Hlast; [|discriminate].
      destruct Hlast as [pre' ->]. exists pre'. now left.
  - intros pre ja e post Heq. rewrite Heq in Hchain.
    apply chained_middle in Hchain.
    destruct Hchain as [[Hstep|[_ [|[_ ]]]] [[Hnext|[Hno _]] _]]; try discriminate.
    inversion Hstep; subst. inversion Hnext. reflexivity.
  - intros pre wd ja post w' Heq Hdis.
    destruct (check_real_cert_loop_split w) as (P & ja1 & Hnon & Hrun).
    assert (Hout : ~ In (wd, EvDisconnect ja) P)
      by (intros Hin; apply Hnon in Hin; discriminate).
    destruct Hrun as [Hrun|(P' & wa & wl & HP & Hrun)].
    + exfalso. destruct (Hrun fuel) as (o & Hr & _). rewrite Hr in Heq. simpl in Heq.
      apply Hout. rewrite Heq. apply in_or_app. right. now left.
    + rewrite Hrun in Heq. simpl in Heq.
      apply app_cut_right in Heq; [|exact Hout].
      destruct Heq as (pre2 & -> & Hloop).
      assert (ja = ja1) as ->.
      { eapply job_loop_disconnect_agent. rewrite Hloop.
        apply in_or_app. right. left. reflexivity. }
      exact (job_loop_resumes env fuel ja1 wl pre2 post wd w' Hloop Hdis).
Qed.

End Temporal.

(** ** Termination *)

Section Termination.

Context {Ext : Type} (env : @Collaborators Ext) (cfg : Settings).

Lemma agent_phase_cooperative (Hcoop : cooperative env) (fuel : nat) (w : World) :
  snd (bind (new_jobagent env cfg) (fun jobagent => job_loop env fuel jobagent) w)
    = OutOfFuel /\
  fuel <= length (fst (bind (new_jobagent env cfg)
                         (fun jobagent => job_loop env fuel jobagent) w)) /\
  (1 <= fuel ->
   exists wi ja,
     In (wi, EvInit ja)
        (fst (bind (new_jobagent env cfg) (fun jobagent => job_loop env fuel jobagent) w))).
Proof.
  rewrite agent_phase_eq.
  pose proof Hcoop as (_ & _ & Hnew & _).
  destruct (Hnew (agent_arguments (thing_prefix cfg) (provisioner w)) w) as (w1 & ->).
  destruct (job_loop_cooperative env Hcoop fuel
              (agent_arguments (thing_prefix cfg) (provisioner w)) w1) as [Hout Hlen].
  split; [exact Hout|]. split; [simpl; lia|].
  intros Hfuel. destruct fuel as [|fuel]; [lia|].
  destruct (job_loop_starts env fuel (agent_arguments (thing_prefix cfg) (provisioner w)) w1)
    as [rest Hrest].
  exists w1, (agent_arguments (thing_prefix cfg) (provisioner w)).
  simpl. rewrite Hrest. right. now left.
Qed.

(** C10, as amended.  [check_real_cert] returns exactly when
    [actua_cert_path] does not exist or is not a directory.  When the
    directory is empty, or lists a certificate and a key, and the
    collaborators' calls return, the run gets to the [while True] loop and
    stays in it: whatever the fuel, it is still running when the fuel is
    used up, and has made at least that many recorded steps. *)
Theorem C10_returns_iff_no_directory (fuel : nat) (w : World) :
  ((exists w', snd (check_real_cert env cfg fuel w) = Ok tt w') <->
   os_path_exists (fs w) (actua_cert_path cfg) = false \/
   os_path_isdir (fs w) (actua_cert_path cfg) = false) /\
  (cooperative env ->
   listing_of cfg w = Some [] \/
   (exists listing,
      listing_of cfg w = Some listing /\
      existsb is_crt listing = true /\ existsb is_key listing = true) ->
   snd (check_real_cert env cfg fuel w) = OutOfFuel /\
   fuel <= length (fst (check_real_cert env cfg fuel w)) /\
   (1 <= fuel ->
    exists wi ja, In (wi, EvInit ja) (fst (check_real_cert env cfg fuel w)))).
Proof.
  assert (Hnone : listing_of cfg w = None <->
                  os_path_exists (fs w) (actua_cert_path cfg) = false \/
                  os_path_isdir (fs w) (actua_cert_path cfg) = false).
  { unfold listing_of, os_path_exists, os_path_isdir.
    destruct (fs_lookup (fs w) (actua_cert_path cfg)) as [[c|l]|]; split;
      try tauto; try discriminate. intros [|]; discriminate. }
  split; [split|].
  - intros [w' Hok]. apply Hnone.
    destruct (listing_of cfg w) as [listing|] eqn:Hdir; [exfalso|reflexivity].
    destruct (check_real_cert_structure env cfg w) as (P & _ & Hrun); [congruence|].
    destruct Hrun as [(e & w2 & Hrun)|(P' & wa & wl & _ & _ & Hrun)];
      rewrite Hrun in Hok; simpl in Hok; [discriminate|].
    eapply job_loop_never_returns, Hok.
  - intros H. apply Hnone in H. rewrite check_real_cert_absent by exact H.
    now exists w.
  - intros Hcoop Hcase. pose proof Hcoop as (Hget & Hprobe & _).
    assert (Hphase : forall (tr : trace) (w1 : World),
               (exists pre,
                  tr = pre ++ fst (bind (new_jobagent env cfg)
                                     (fun jobagent => job_loop env fuel jobagent) w1)) ->
               snd (bind (new_jobagent env cfg)
                      (fun jobagent => job_loop env fuel jobagent) w1) = OutOfFuel /\
               fuel <= length tr /\
               (1 <= fuel -> exists wi ja, In (wi, EvInit ja) tr)).
    { intros tr w1 [pre ->].
      destruct (agent_phase_cooperative Hcoop fuel w1) as (Hout & Hlen & Hinit).
      split; [exact Hout|]. split; [rewrite length_app; lia|].
      intros Hfuel. destruct (Hinit Hfuel) as (wi & ja & Hin).
      exists wi, ja. apply in_or_app. now right. }
    destruct Hcase as [Hdir|(listing & Hdir & Hcrt & Hkey)].
    + rewrite (check_real_cert_first_boot env cfg fuel w Hdir), run_provisioning_false.
      destruct (can_open (fs w) (claim_cert_path cfg)).
      * destruct (Hget false w) as (w1 & Hr).
        destruct (get_official_certs env false w) as [payloads r]. simpl in Hr. subst r.
        cbn [fst snd]. apply Hphase.
        exists ((w, EvPrint "Actual cert Directory is empty")
                  :: ((w, EvOpen (claim_cert_path cfg))
                        :: (w, EvGetOfficialCerts false) :: callback_trace payloads)
                  ++ [(w1, EvPrint "Starting sensor"); (w1, EvThreadStart);
                      (w1, EvPrint "Sensor thread Started");
                      (w1, EvPrint "Provisioning complete. Starting job agent to listen for jobs")]).
        cbn [app]. rewrite <- app_assoc. reflexivity.
      * cbn [fst snd]. apply Hphase.
        exists [(w, EvPrint "Actual cert Directory is empty");
                (w, EvOpen (claim_cert_path cfg));
                (w, EvPrint "### Bootstrap cert non-existent. Official cert may already be in place.");
                (w, EvPrint "Starting sensor"); (w, EvThreadStart);
                (w, EvPrint "Sensor thread Started");
                (w, EvPrint "Provisioning complete. Starting job agent to listen for jobs")].
        reflexivity.
    + destruct listing as [|x l]; [discriminate|].
      rewrite (check_real_cert_provisioned env cfg fuel w x l Hdir).
      destruct (filter is_crt (x :: l)) as [|cert crts] eqn:Hfc;
        [apply filter_nil_existsb in Hfc; congruence|].
      destruct (filter is_key (x :: l)) as [|key keys] eqn:Hfk;
        [apply filter_nil_existsb in Hfk; congruence|].
      destruct (Hprobe "test message" (selected_world w cert key)) as (w2 & ->).
      cbn [fst snd]. apply Hphase.
      exists [(with_provisioner (Provisioner.set_isFirst false) w,
               EvPrint "Directory is not empty so actual cert downloaded");
              (selected_world w cert key, EvTestRestrictedTopic "test message");
              (w2, EvPrint "Starting sensor"); (w2, EvThreadStart);
              (w2, EvPrint "Sensor thread Started");
              (w2, EvPrint "Starting job agent to listen for jobs")].
      reflexivity.
Qed.

End Termination.

(** ** The demo device, run *)

Lemma demo_cooperative : cooperative Demo.collaborators.
Proof.
  repeat split; intros; repeat eexists.
Qed.

Lemma demo_first_match_crt :
  first_match is_crt ["dev42.crt"; "dev42.key"] "dev42.crt".
Proof.
  exists [], ["dev42.key"]. repeat split. intros y [].
Qed.

Lemma demo_first_match_key :
  first_match is_key ["dev42.crt"; "dev42.key"] "dev42.key".
Proof.
  exists ["dev42.crt"], []. repeat split. intros y [<-|[]]. reflexivity.
Qed.

(** The amended C1 on a first boot: the exchange is made. *)
Lemma C1_first_boot_witness :
  no_production_identity Demo.settings Demo.first_boot /\
  provisioning_invoked false
    (fst (check_real_cert Demo.collaborators Demo.settings 2 Demo.first_boot)).
Proof.
  split; [right; reflexivity|].
  apply (C1_provisioning_call_on_first_boot Demo.collaborators Demo.settings 2
           Demo.first_boot (or_intror eq_refl)).
  split; reflexivity.
Defined.

(** C1 as stated fails: with the directory missing, and on a first boot
    without claim certificate, no production identity is stored and yet
    [get_official_certs] is not called. *)
Lemma C1_counterexample :
  (no_production_identity Demo.settings Demo.no_directory /\
   ~ provisioning_invoked false
       (fst (check_real_cert Demo.collaborators Demo.settings 2 Demo.no_directory))) /\
  (no_production_identity Demo.settings Demo.first_boot_no_claim /\
   ~ provisioning_invoked false
       (fst (check_real_cert Demo.collaborators Demo.settings 2 Demo.first_boot_no_claim))).
Proof.
  split; (split; [first [left; reflexivity|right; reflexivity]|]);
    intros [w' Hin]; vm_compute in Hin;
    repeat (destruct Hin as [Hin|Hin]; [discriminate|]); exact Hin.
Qed.



(** C3 on a provisioned device. *)
Lemma C3_provisioned_witness :
  listing_of Demo.settings Demo.provisioned = Some ["dev42.crt"; "dev42.key"] /\
  ~ provisioning_invoked false
      (fst (check_real_cert Demo.collaborators Demo.settings 2 Demo.provisioned)).
Proof.
  split; [reflexivity|].
  exact (C3_no_provisioning_when_provisioned Demo.collaborators Demo.settings 2
           Demo.provisioned "dev42.crt" ["dev42.key"] eq_refl false).
Defined.



(** C5 on a device without claim certificate. *)
Lemma C5_no_claim_witness :
  can_open (fs Demo.first_boot_no_claim) (claim_cert_path Demo.settings) = false /\
  run_provisioning Demo.collaborators Demo.settings false Demo.first_boot_no_claim =
  ([(Demo.first_boot_no_claim, EvOpen "certs/bootstrap.crt");
    (Demo.first_boot_no_claim,
     EvPrint "### Bootstrap cert non-existent. Official cert may already be in place.")],
   Ok tt Demo.first_boot_no_claim).
Proof.
  split; [reflexivity|].
  exact (proj2 (proj2 (C5_claim_certificate_guard Demo.collaborators Demo.settings
                         Demo.first_boot_no_claim)) eq_refl).
Defined.

(** The amended C6 on a provisioned device whose probe fails. *)
Lemma C6_failing_probe_witness :
  listing_of Demo.settings Demo.provisioned = Some ["dev42.crt"; "dev42.key"] /\
  check_real_cert Demo.failing_probe Demo.settings 2 Demo.provisioned =
  ([(with_provisioner (Provisioner.set_isFirst false) Demo.provisioned,
     EvPrint "Directory is not empty so actual cert downloaded");
    (selected_world Demo.provisioned "dev42.crt" "dev42.key",
     EvTestRestrictedTopic "test message")],
   Raised (OtherError "publishTimeoutException")
     (selected_world Demo.provisioned "dev42.crt" "dev42.key")).
Proof.
  split; [reflexivity|].
  destruct (C6_probe_without_fallback Demo.failing_probe Demo.settings 2 Demo.provisioned
              ["dev42.crt"; "dev42.key"] "dev42.crt" "dev42.key"
              eq_refl demo_first_match_crt demo_first_match_key)
    as (_ & _ & _ & Hraise & _).
  apply Hraise. reflexivity.
Defined.

(** C6 as stated fails: with empty certificate and key files the run goes
    on to construct the agent, and when the probe fails the exception
    leaves [check_real_cert] without any provisioning call. *)
Lemma C6_counterexample :
  listing_of Demo.settings Demo.empty_blobs = Some ["dev42.crt"; "dev42.key"] /\
  fs_lookup (fs Demo.empty_blobs) "actual/dev42.crt" = Some (File "") /\
  fs_lookup (fs Demo.empty_blobs) "actual/dev42.key" = Some (File "") /\
  In (selected_world Demo.empty_blobs "dev42.crt" "dev42.key", EvNewAgent Demo.agent)
     (fst (check_real_cert Demo.collaborators Demo.settings 2 Demo.empty_blobs)) /\
  check_real_cert Demo.failing_probe Demo.settings 2 Demo.empty_blobs =
  ([(with_provisioner (Provisioner.set_isFirst false) Demo.empty_blobs,
     EvPrint "Directory is not empty so actual cert downloaded");
    (selected_world Demo.empty_blobs "dev42.crt" "dev42.key",
     EvTestRestrictedTopic "test message")],
   Raised (OtherError "publishTimeoutException")
     (selected_world Demo.empty_blobs "dev42.crt" "dev42.key")).
Proof.
  repeat split; try reflexivity.
  vm_compute. do 6 right. left. reflexivity.
Qed.

(** C7 on a provisioned device. *)
Lemma C7_provisioned_witness :
  In (selected_world Demo.provisioned "dev42.crt" "dev42.key",
      EvTestRestrictedTopic "test message")
     (fst (check_real_cert Demo.collaborators Demo.settings 2 Demo.provisioned)) /\
  first_match is_crt ["dev42.crt"; "dev42.key"] "dev42.crt" /\
  first_match is_key ["dev42.crt"; "dev42.key"] "dev42.key".
Proof.
  assert (Hin : In (selected_world Demo.provisioned "dev42.crt" "dev42.key",
                    EvTestRestrictedTopic "test message")
                   (fst (check_real_cert Demo.collaborators Demo.settings 2 Demo.provisioned)))
    by (vm_compute; right; left; reflexivity).
  split; [exact Hin|].
  exact (proj1 C7_first_match_selection nat Demo.collaborators Demo.settings 2
           Demo.provisioned (selected_world Demo.provisioned "dev42.crt" "dev42.key")
           ["dev42.crt"; "dev42.key"] "test message" eq_refl Hin).
Defined.

(** C8 on a first boot, four units of fuel: the sixteenth event is the
    first disconnect; it comes after a poll that answered true, and the
    next [init] follows it. *)
Lemma C8_first_cycle_witness :
  fst (check_real_cert Demo.collaborators Demo.settings 4 Demo.first_boot) =
    firstn 15 (fst (check_real_cert Demo.collaborators Demo.settings 4 Demo.first_boot))
      ++ (Demo.polled 3 (Demo.issued Demo.first_boot), EvDisconnect Demo.agent)
      :: skipn 16 (fst (check_real_cert Demo.collaborators Demo.settings 4 Demo.first_boot)) /\
  (exists pre',
     firstn 15 (events (fst (check_real_cert Demo.collaborators Demo.settings 4
                               Demo.first_boot)))
     = pre' ++ [EvIsRebooting Demo.agent (Some true)]) /\
  (exists post',
     skipn 16 (fst (check_real_cert Demo.collaborators Demo.settings 4 Demo.first_boot))
     = (Demo.polled 3 (Demo.issued Demo.first_boot), EvInit Demo.agent) :: post').
Proof.
  pose proof (C8_job_loop_order Demo.collaborators Demo.settings 4 Demo.first_boot)
    as (Hdisconnect & _ & _ & _ & Hresume).
  split; [reflexivity|]. split.
  - apply (Hdisconnect _ Demo.agent
             (skipn 16 (events (fst (check_real_cert Demo.collaborators Demo.settings 4
                                       Demo.first_boot))))).
    reflexivity.
  - apply (Hresume
             (firstn 15 (fst (check_real_cert Demo.collaborators Demo.settings 4
                                Demo.first_boot)))
             (Demo.polled 3 (Demo.issued Demo.first_boot)) Demo.agent).
    + reflexivity.
    + reflexivity.
Defined.

(** C9 on a directory that holds no certificate. *)
Lemma C9_stray_file_witness :
  listing_of Demo.settings Demo.stray_file = Some ["notes.txt"] /\
  existsb is_crt ["notes.txt"] = false /\
  exists w',
    check_real_cert Demo.collaborators Demo.settings 2 Demo.stray_file =
    ([(with_provisioner (Provisioner.set_isFirst false) Demo.stray_file,
       EvPrint "Directory is not empty so actual cert downloaded")],
     Raised IndexError w').
Proof.
  split; [reflexivity|]. split; [reflexivity|].
  exact (proj2 (C9_index_needs_certificate_and_key Demo.collaborators Demo.settings 2
                  Demo.stray_file "notes.txt" [] eq_refl) (or_introl eq_refl)).
Defined.

(** The amended C10 on a first boot: the run is in the loop, still
    running after six units of fuel. *)
Lemma C10_first_boot_witness :
  cooperative Demo.collaborators /\
  listing_of Demo.settings Demo.first_boot = Some [] /\
  snd (check_real_cert Demo.collaborators Demo.settings 6 Demo.first_boot) = OutOfFuel /\
  6 <= length (fst (check_real_cert Demo.collaborators Demo.settings 6 Demo.first_boot)).
Proof.
  destruct (proj2 (C10_returns_iff_no_directory Demo.collaborators Demo.settings 6
                     Demo.first_boot) demo_cooperative (or_introl eq_refl))
    as (Hout & Hlen & _).
  exact (conj demo_cooperative (conj eq_refl (conj Hout Hlen))).
Defined.

(** C10 as stated fails: the directory exists, yet the run neither
    returns nor gets to the loop; it stops on [IndexError] after its first
    message. *)
Lemma C10_counterexample :
  os_path_exists (fs Demo.stray_file) (actua_cert_path Demo.settings) = true /\
  os_path_isdir (fs Demo.stray_file) (actua_cert_path Demo.settings) = true /\
  check_real_cert Demo.collaborators Demo.settings 6 Demo.stray_file =
  ([(with_provisioner (Provisioner.set_isFirst false) Demo.stray_file,
     EvPrint "Directory is not empty so actual cert downloaded")],
   Raised IndexError (with_provisioner (Provisioner.set_isFirst false) Demo.stray_file)).
Proof.
  repeat split.
Qed.

(** ** Counting events *)

Lemma count_events_app {Ext : Type} (p : event -> bool) (t1 t2 : @trace Ext) :
  count_events p (t1 ++ t2) = count_events p t1 + count_events p t2.
Proof.
  unfold count_events. now rewrite filter_app, length_app.
Qed.

Lemma count_events_cons {Ext : Type} (p : event -> bool) (we : @World Ext * event)
    (t : @trace Ext) :
  count_events p (we :: t) = (if p (snd we) then 1 else 0) + count_events p t.
Proof.
  unfold count_events. simpl. now destruct (p (snd we)).
Qed.

Lemma count_events_none {Ext : Type} (p : event -> bool) (t : @trace Ext) :
  (forall we, In we t -> p (snd we) = false) -> count_events p t = 0.
Proof.
  unfold count_events. induction t as [|we t IH]; intros Hall; [reflexivity|].
  simpl. rewrite (Hall we) by now left. apply IH. intros x Hx. apply Hall. now right.
Qed.

Lemma count_events_callback_trace {Ext : Type} (p : event -> bool)
    (payloads : list (@World Ext * string)) :
  (forall text, p (EvPrint text) = false) ->
  count_events p (callback_trace payloads) = 0.
Proof.
  intros Hprint. apply count_events_none. intros we Hin.
  unfold callback_trace in Hin. apply in_flat_map in Hin.
  destruct Hin as (wp & _ & [<-|[]]). apply Hprint.
Qed.

Lemma count_events_job_loop {Ext : Type} (env : @Collaborators Ext) (p : event -> bool)
    (fuel : nat) (ja : JobAgent) (w : World) :
  (forall e, is_loop_event e = true -> p e = false) ->
  count_events p (fst (job_loop env fuel ja w)) = 0.
Proof.
  intros Hloop. apply count_events_none. intros we Hin.
  apply Hloop. eapply job_loop_events, Hin.
Qed.

(** ** When the provisioning exchange fails *)

Section ExchangeFailures.

Context {Ext : Type} (env : @Collaborators Ext) (cfg : Settings).

(** X1.  A rotation calls [get_official_certs] with [isRotation] true
    whatever the state of the claim certificate, which it does not open;
    and it has no handler: the outcome is that of the exchange, [IOError]
    included. *)
Theorem X1_rotation_bypasses_the_claim_certificate (w : World) :
  provisioning_invoked true (fst (run_provisioning env cfg true w)) /\
  (forall path w', ~ In (w', EvOpen path) (fst (run_provisioning env cfg true w))) /\
  (forall text w',
     In (w', EvPrint text) (fst (run_provisioning env cfg true w)) ->
     In (w', text) (fst (get_official_certs env true w))) /\
  snd (run_provisioning env cfg true w) = of_result (snd (get_official_certs env true w)).
Proof.
  unfold run_provisioning, provisioner_get_official_certs. simpl.
  destruct (get_official_certs env true w) as [payloads r]. simpl.
  assert (Hcb : forall w' e, In (w', e) (callback_trace payloads) ->
                             exists text, e = EvPrint text /\ In (w', text) payloads).
  { intros w' e Hin. unfold callback_trace in Hin. apply in_flat_map in Hin.
    destruct Hin as ([w2 text] & Hwp & [[= <- <-]|[]]). now exists text. }
  repeat split.
  - exists w. now left.
  - intros path w' [Hin|Hin]; [discriminate|].
    destruct (Hcb _ _ Hin) as (text & Heq & _). discriminate.
  - intros text w' [Hin|Hin]; [discriminate|].
    destruct (Hcb _ _ Hin) as (text' & [= ->] & Hp). exact Hp.
Qed.

(** X2.  Without the rotation flag the [except IOError] also covers the
    exchange itself: an [IOError] raised inside [get_official_certs] is
    reported as a missing bootstrap certificate and [run_provisioning]
    returns normally; any other exception propagates, with no message. *)
Theorem X2_exchange_IOError_is_swallowed (w w1 : World) (payloads : list (World * string)) :
  can_open (fs w) (claim_cert_path cfg) = true ->
  (get_official_certs env false w = (payloads, Raises IOError w1) ->
   run_provisioning env cfg false w =
   ((w, EvOpen (claim_cert_path cfg)) :: (w, EvGetOfficialCerts false)
      :: callback_trace payloads
      ++ [(w1, EvPrint "### Bootstrap cert non-existent. Official cert may already be in place.")],
    Ok tt w1)) /\
  (forall e,
     e <> IOError ->
     get_official_certs env false w = (payloads, Raises e w1) ->
     run_provisioning env cfg false w =
     ((w, EvOpen (claim_cert_path cfg)) :: (w, EvGetOfficialCerts false)
        :: callback_trace payloads,
      Raised e w1)).
Proof.
  intros Hopen. rewrite run_provisioning_false, Hopen. split.
  - intros ->. reflexivity.
  - intros e He ->. destruct e; [congruence|reflexivity|reflexivity].
Qed.

(** X3.  A first boot does not stop when no certificate was obtained.
    Without claim certificate, or after an [IOError] inside the exchange,
    [check_real_cert] still starts the sensor thread, prints
    "Provisioning complete" and constructs the job agent, from the
    provisioner as it is then. *)
Theorem X3_first_boot_goes_on_without_certificate (fuel : nat) (w : World) :
  listing_of cfg w = Some [] ->
  (can_open (fs w) (claim_cert_path cfg) = false ->
   exists post,
     fst (check_real_cert env cfg fuel w) =
     (w, EvPrint "Actual cert Directory is empty")
       :: (w, EvOpen (claim_cert_path cfg))
       :: (w, EvPrint "### Bootstrap cert non-existent. Official cert may already be in place.")
       :: (w, EvPrint "Starting sensor")
       :: (w, EvThreadStart)
       :: (w, EvPrint "Sensor thread Started")
       :: (w, EvPrint "Provisioning complete. Starting job agent to listen for jobs")
       :: (w, EvNewAgent (agent_arguments (thing_prefix cfg) (provisioner w)))
       :: post) /\
  (forall payloads w1,
     can_open (fs w) (claim_cert_path cfg) = true ->
     get_official_certs env false w = (payloads, Raises IOError w1) ->
     exists post,
       fst (check_real_cert env cfg fuel w) =
       (w, EvPrint "Actual cert Directory is empty")
         :: (w, EvOpen (claim_cert_path cfg))
         :: (w, EvGetOfficialCerts false)
         :: callback_trace payloads
         ++ (w1, EvPrint "### Bootstrap cert non-existent. Official cert may already be in place.")
         :: (w1, EvPrint "Starting sensor")
         :: (w1, EvThreadStart)
         :: (w1, EvPrint "Sensor thread Started")
         :: (w1, EvPrint "Provisioning complete. Starting job agent to listen for jobs")
         :: (w1, EvNewAgent (agent_arguments (thing_prefix cfg) (provisioner w1)))
         :: post).
Proof.
  intros Hdir. rewrite (check_real_cert_first_boot env cfg fuel w Hdir), run_provisioning_false.
  split.
  - intros ->. rewrite agent_phase_eq.
    destruct (DeviceJobAgent env _ w) as [[] wl|e wl]; simpl; now eexists.
  - intros payloads w1 -> ->. rewrite agent_phase_eq.
    destruct (DeviceJobAgent env _ w1) as [[] wl|e wl]; simpl; eexists;
      rewrite <- app_assoc; reflexivity.
Qed.

(** X4.  Any other exception of the exchange ends a first boot at once:
    it leaves [check_real_cert] right after the handler's callbacks, the
    sensor thread is not started and no job agent is constructed. *)
Theorem X4_exchange_failure_ends_first_boot (fuel : nat) (w w1 : World)
    (payloads : list (World * string)) (e : exn) :
  listing_of cfg w = Some [] ->
  can_open (fs w) (claim_cert_path cfg) = true ->
  e <> IOError ->
  get_official_certs env false w = (payloads, Raises e w1) ->
  check_real_cert env cfg fuel w =
    ((w, EvPrint "Actual cert Directory is empty")
       :: (w, EvOpen (claim_cert_path cfg))
       :: (w, EvGetOfficialCerts false)
       :: callback_trace payloads,
     Raised e w1) /\
  count_events is_thread_start (fst (check_real_cert env cfg fuel w)) = 0 /\
  count_events is_construction (fst (check_real_cert env cfg fuel w)) = 0.
Proof.
  intros Hdir Hopen He Hcall.
  assert (Hrun : check_real_cert env cfg fuel w =
                 ((w, EvPrint "Actual cert Directory is empty")
                    :: (w, EvOpen (claim_cert_path cfg))
                    :: (w, EvGetOfficialCerts false)
                    :: callback_trace payloads,
                  Raised e w1)).
  { rewrite (check_real_cert_first_boot env cfg fuel w Hdir), run_provisioning_false,
      Hopen, Hcall.
    destruct e; [congruence|reflexivity|reflexivity]. }
  rewrite Hrun. split; [reflexivity|]. simpl.
  rewrite !count_events_cons. simpl.
  rewrite !count_events_callback_trace by reflexivity. now split.
Qed.

End ExchangeFailures.

(** ** Suffixes *)

Lemma string_length_append (p s : string) :
  String.length (p ++ s) = String.length p + String.length s.
Proof.
  induction p as [|c p IH]; simpl; [reflexivity|now rewrite IH].
Qed.

Lemma substring_all (s : string) : substring 0 (String.length s) s = s.
Proof.
  induction s as [|c s IH]; simpl; [reflexivity|now rewrite IH].
Qed.

Lemma substring_skip (p s : string) (n : nat) :
  substring (String.length p) n (p ++ s) = substring 0 n s.
Proof.
  induction p as [|c p IH]; simpl; [reflexivity|exact IH].
Qed.

Lemma substring_split (n : nat) :
  forall s : string,
    n <= String.length s ->
    s = (substring 0 n s ++ substring n (String.length s - n) s)%string.
Proof.
  induction n as [|n IH]; intros s Hn.
  - rewrite Nat.sub_0_r, substring_all. now destruct s.
  - destruct s as [|c s]; simpl in *; [lia|].
    f_equal. apply IH. lia.
Qed.

(** [endswith] is what its name says. *)
Lemma endswith_iff (s suffix : string) :
  endswith s suffix = true <-> exists stem, s = (stem ++ suffix)%string.
Proof.
  unfold endswith. rewrite andb_true_iff, Nat.leb_le, String.eqb_eq. split.
  - intros [Hlen Hsub].
    exists (substring 0 (String.length s - String.length suffix) s).
    assert (Hcut : String.length s - String.length suffix <= String.length s) by lia.
    apply substring_split in Hcut.
    replace (String.length s - (String.length s - String.length suffix))
      with (String.length suffix) in Hcut by lia.
    now rewrite Hsub in Hcut.
  - intros [stem ->]. rewrite string_length_append. split; [lia|].
    replace (String.length stem + String.length suffix - String.length suffix)
      with (String.length stem) by lia.
    rewrite substring_skip. apply substring_all.
Qed.

(** No name ends in both [.crt] and [.key]. *)
Lemma crt_is_not_key (filename : string) :
  is_crt filename = true -> is_key filename = false.
Proof.
  unfold is_crt, is_key, endswith. simpl String.length.
  destruct (Nat.leb 4 (String.length filename)); simpl; [|discriminate].
  intros Hcrt. apply String.eqb_eq in Hcrt. now rewrite Hcrt.
Qed.

(** ** Discovery, at its edges *)

Section DiscoveryEdges.

Context {Ext : Type} (env : @Collaborators Ext) (cfg : Settings).

(** X5.  The two names are not assigned together.  When the listing has a
    certificate and no key, [IndexError] is raised after [new_cert_name]
    has been assigned: the provisioner is left with the new certificate
    name beside the key name it had.  When the listing has no
    certificate, only [isFirst] has been changed. *)
Theorem X5_names_are_assigned_one_by_one (fuel : nat) (w : World)
    (listing : list string) :
  listing_of cfg w = Some listing ->
  listing <> [] ->
  (forall cert,
     first_match is_crt listing cert -> existsb is_key listing = false ->
     exists w',
       snd (check_real_cert env cfg fuel w) = Raised IndexError w' /\
       Provisioner.new_cert_name (provisioner w') = cert /\
       Provisioner.new_key_name (provisioner w') = Provisioner.new_key_name (provisioner w) /\
       Provisioner.isFirst (provisioner w') = false) /\
  (existsb is_crt listing = false ->
   snd (check_real_cert env cfg fuel w) =
   Raised IndexError (with_provisioner (Provisioner.set_isFirst false) w)).
Proof.
  intros Hdir Hne. destruct listing as [|x l]; [congruence|].
  rewrite (check_real_cert_provisioned env cfg fuel w x l Hdir). split.
  - intros cert Hcrt Hkey. apply filter_first_match in Hcrt. destruct Hcrt as [crts ->].
    apply filter_nil_existsb in Hkey. rewrite Hkey.
    eexists. split; [reflexivity|]. now repeat split.
  - intros Hcrt. apply filter_nil_existsb in Hcrt. now rewrite Hcrt.
Qed.

(** X6.  A directory with a single entry never holds an identity: no name
    ends in both [.crt] and [.key], so one of the two [files[0]] raises
    [IndexError], before any collaborator is called. *)
Theorem X6_single_entry_raises_IndexError (fuel : nat) (w : World) (x : string) :
  listing_of cfg w = Some [x] ->
  exists w',
    check_real_cert env cfg fuel w =
    ([(with_provisioner (Provisioner.set_isFirst false) w,
       EvPrint "Directory is not empty so actual cert downloaded")],
     Raised IndexError w').
Proof.
  intros Hdir. rewrite (check_real_cert_provisioned env cfg fuel w x [] Hdir). simpl.
  destruct (is_crt x) eqn:Hcrt.
  - rewrite (crt_is_not_key x Hcrt). now eexists.
  - now eexists.
Qed.

(** X7.  The list comprehensions keep exactly the entries named
    [stem + ".crt"] (or [".key"]), the empty stem included; so the names
    the probe runs with always have these forms. *)
Theorem X7_selected_names_have_the_suffixes (fuel : nat) (w wp : World)
    (listing : list string) (message : string) :
  (forall name,
     In name (filter is_crt listing) <->
     In name listing /\ exists stem, name = (stem ++ ".crt")%string) /\
  (forall name,
     In name (filter is_key listing) <->
     In name listing /\ exists stem, name = (stem ++ ".key")%string) /\
  (In (wp, EvTestRestrictedTopic message) (fst (check_real_cert env cfg fuel w)) ->
   (exists stem, Provisioner.new_cert_name (provisioner wp) = (stem ++ ".crt")%string) /\
   (exists stem, Provisioner.new_key_name (provisioner wp) = (stem ++ ".key")%string)).
Proof.
  split; [|split].
  - intros name. rewrite filter_In. unfold is_crt. now rewrite endswith_iff.
  - intros name. rewrite filter_In. unfold is_key. now rewrite endswith_iff.
  - intros Hin. apply probe_world in Hin.
    destruct Hin as (l & cert & key & _ & Hcrt & Hkey & ->).
    destruct Hcrt as (_ & _ & _ & Hcrt & _), Hkey as (_ & _ & _ & Hkey & _).
    split; apply endswith_iff; assumption.
Qed.

(** X8.  Up to the probe the script has changed nothing but the three
    attributes it assigns: the probe runs on the file system and in the
    collaborators' state the run started with, [isFirst] is false, and the
    other attributes of the provisioner are untouched. *)
Theorem X8_probe_runs_in_the_initial_world (fuel : nat) (w wp : World) (message : string) :
  In (wp, EvTestRestrictedTopic message) (fst (check_real_cert env cfg fuel w)) ->
  message = "test message" /\
  fs wp = fs w /\ ext wp = ext w /\
  Provisioner.isFirst (provisioner wp) = false /\
  Provisioner.unique_id (provisioner wp) = Provisioner.unique_id (provisioner w) /\
  Provisioner.iot_endpoint (provisioner wp) = Provisioner.iot_endpoint (provisioner w) /\
  Provisioner.actua_cert_path (provisioner wp) = Provisioner.actua_cert_path (provisioner w) /\
  Provisioner.secure_cert_path (provisioner wp) = Provisioner.secure_cert_path (provisioner w) /\
  Provisioner.root_cert (provisioner wp) = Provisioner.root_cert (provisioner w).
Proof.
  intros Hin. pose proof Hin as Hev. apply check_real_cert_events in Hev.
  destruct Hev as [(Hmsg & _)|Hloop]; [|discriminate].
  apply probe_world in Hin. destruct Hin as (l & cert & key & _ & _ & _ & ->).
  now repeat split.
Qed.

End DiscoveryEdges.

(** ** One exchange, one thread, one agent *)

Section Once.

Context {Ext : Type} (env : @Collaborators Ext) (cfg : Settings).

Lemma job_loop_calls (fuel : nat) (ja : JobAgent) :
  forall (w : World) (we : World * event),
    In we (fst (job_loop env fuel ja w)) -> loop_call_of ja (snd we).
Proof.
  induction fuel as [|fuel IH]; intros w we; [intros []|].
  rewrite job_loop_S.
  assert (Hwait : forall w1, In we (fst (wait_for_reboot env fuel ja w1)) ->
                             loop_call_of ja (snd we)).
  { intros w1 H. destruct (wait_for_reboot_events _ _ _ _ _ H) as [Hpoll|Hsleep].
    - right. now left.
    - right. right. now left. }
  assert (Hinit : loop_call_of ja (EvInit ja)) by now left.
  assert (Hdisconnect : loop_call_of ja (EvDisconnect ja)) by (right; right; now right).
  destruct (init env ja w) as [[] w1|e w1]; simpl; [|intros [<-|[]]; exact Hinit].
  specialize (Hwait w1).
  destruct (wait_for_reboot env fuel ja w1) as [t [[] w2|e w2|]]; simpl in *;
    [|intros [<-|H]; auto..].
  destruct (disconnect env ja w2) as [[] w3|e w3]; simpl;
    (intros [<-|H]; [exact Hinit|]); apply in_app_or in H;
    destruct H as [H|[<-|H]]; eauto; contradiction.
Qed.

(** Closes a bound on the count of an event over an explicit trace. *)
Ltac count_trace :=
  cbn [fst snd];
  repeat rewrite ?count_events_cons, ?count_events_app;
  rewrite ?count_events_callback_trace by reflexivity;
  rewrite ?count_events_job_loop by (intros e; destruct e; simpl; congruence);
  unfold count_events; simpl; lia.

(** X9.  A run makes at most one provisioning exchange (there is no
    retry), starts at most one sensor thread and constructs at most one
    job agent, however long it runs. *)
Theorem X9_at_most_once (fuel : nat) (w : World) :
  count_events is_provisioning_call (fst (check_real_cert env cfg fuel w)) <= 1 /\
  count_events is_thread_start (fst (check_real_cert env cfg fuel w)) <= 1 /\
  count_events is_construction (fst (check_real_cert env cfg fuel w)) <= 1.
Proof.
  destruct (listing_of cfg w) as [[|x l]|] eqn:Hdir.
  - rewrite (check_real_cert_first_boot env cfg fuel w Hdir), run_provisioning_false.
    destruct (can_open (fs w) (claim_cert_path cfg)).
    + destruct (get_official_certs env false w) as [payloads [[] w1|[| |name] w1]];
        rewrite ?agent_phase_eq;
        try destruct (DeviceJobAgent env _ w1) as [[] wl|e wl];
        repeat split; count_trace.
    + rewrite agent_phase_eq.
      destruct (DeviceJobAgent env _ w) as [[] wl|e wl]; repeat split; count_trace.
  - rewrite (check_real_cert_provisioned env cfg fuel w x l Hdir).
    destruct (filter is_crt (x :: l)) as [|cert crts]; [repeat split; count_trace|].
    destruct (filter is_key (x :: l)) as [|key keys]; [repeat split; count_trace|].
    destruct (test_restricted_topic env "test message" _) as [[] w2|e w2];
      [|repeat split; count_trace].
    rewrite agent_phase_eq.
    destruct (DeviceJobAgent env _ w2) as [[] wl|e wl]; repeat split; count_trace.
  - rewrite (check_real_cert_absent env cfg fuel w Hdir). repeat split; count_trace.
Qed.

(** X10.  No method of a job agent is called unless its construction has
    returned, and every call of the loop is made on that agent, the one
    formatted from the provisioner. *)
Theorem X10_agent_calls_follow_a_construction (fuel : nat) (w wi : World) (e : event) :
  In (wi, e) (fst (check_real_cert env cfg fuel w)) ->
  is_loop_event e = true ->
  exists wa wl ja,
    In (wa, EvNewAgent ja) (fst (check_real_cert env cfg fuel w)) /\
    ja = agent_arguments (thing_prefix cfg) (provisioner wa) /\
    DeviceJobAgent env ja wa = Returns tt wl /\
    loop_call_of ja e.
Proof.
  intros Hin Hloop.
  destruct (listing_of cfg w) as [listing|] eqn:Hdir.
  - destruct (check_real_cert_structure env cfg w) as (P & HP & Hrun); [congruence|].
    rewrite Forall_forall in HP.
    assert (Hout : ~ In (wi, e) P).
    { intros HinP. apply HP in HinP. unfold script_event in HinP. simpl in HinP.
      destruct e; discriminate || contradiction. }
    destruct Hrun as [(e' & w' & Hrun)|(P' & wa & wl & -> & Hnew & Hrun)];
      rewrite Hrun in *; simpl in Hin; [contradiction|].
    apply in_app_or in Hin. destruct Hin as [Hin|Hin]; [contradiction|].
    exists wa, wl, (agent_arguments (thing_prefix cfg) (provisioner wa)).
    split; [|split; [reflexivity|split; [exact Hnew|]]].
    + simpl. apply in_or_app. left. apply in_or_app. right. now left.
    + apply (job_loop_calls _ _ _ _ Hin).
  - rewrite (check_real_cert_absent env cfg fuel w Hdir) in Hin.
    destruct Hin as [[= <- <-]|[]]. discriminate.
Qed.

(** X11.  Where an agent is constructed, the sensor thread was started
    just before, in the same world: between the two the script only
    prints. *)
Theorem X11_sensor_thread_before_the_agent (fuel : nat) (w wa : World) (ja : JobAgent) :
  In (wa, EvNewAgent ja) (fst (check_real_cert env cfg fuel w)) ->
  exists pre text post,
    fst (check_real_cert env cfg fuel w) =
    pre ++ (wa, EvThreadStart) :: (wa, EvPrint "Sensor thread Started")
        :: (wa, EvPrint text) :: (wa, EvNewAgent ja) :: post.
Proof.
  assert (Hphase : forall (tr pre : trace) (w1 : World) (text : string),
             tr = pre ++ (w1, EvThreadStart) :: (w1, EvPrint "Sensor thread Started")
                      :: (w1, EvPrint text)
                      :: fst (bind (new_jobagent env cfg)
                                (fun jobagent => job_loop env fuel jobagent) w1) ->
             (forall we, In we pre -> is_construction (snd we) = false) ->
             In (wa, EvNewAgent ja) tr ->
             exists pre' text' post,
               tr = pre' ++ (wa, EvThreadStart) :: (wa, EvPrint "Sensor thread Started")
                         :: (wa, EvPrint text') :: (wa, EvNewAgent ja) :: post).
  { intros tr pre w1 text -> Hpre Hin. rewrite agent_phase_eq in *.
    apply in_app_or in Hin. destruct Hin as [Hin|Hin]; [apply Hpre in Hin; discriminate|].
    do 3 (destruct Hin as [Hin|Hin]; [discriminate|]).
    destruct (DeviceJobAgent env _ w1) as [[] wl|e wl]; simpl in *;
      (destruct Hin as [[= <- <-]|Hin]; [now exists pre, text; eexists|]).
    - apply job_loop_events in Hin. discriminate.
    - contradiction. }
  assert (Hcb : forall payloads we, In we (@callback_trace Ext payloads) ->
                                    is_construction (snd we) = false).
  { intros payloads we Hin. unfold callback_trace in Hin. apply in_flat_map in Hin.
    destruct Hin as (wp & _ & [<-|[]]). reflexivity. }
  destruct (listing_of cfg w) as [[|x l]|] eqn:Hdir.
  - rewrite (check_real_cert_first_boot env cfg fuel w Hdir), run_provisioning_false.
    destruct (can_open (fs w) (claim_cert_path cfg)).
    + destruct (get_official_certs env false w) as [payloads [[] w1|[| |name] w1]];
        cbn [fst snd].
      * apply (Hphase _
                 ((w, EvPrint "Actual cert Directory is empty")
                    :: ((w, EvOpen (claim_cert_path cfg))
                          :: (w, EvGetOfficialCerts false) :: callback_trace payloads)
                    ++ [(w1, EvPrint "Starting sensor")]) w1
                 "Provisioning complete. Starting job agent to listen for jobs").
        -- cbn [app]. rewrite <- app_assoc. reflexivity.
        -- intros we [<-|Hwe]; [reflexivity|]. apply in_app_or in Hwe.
           destruct Hwe as [[<-|[<-|Hwe]]|[<-|[]]]; try reflexivity. eapply Hcb, Hwe.
      * apply (Hphase _
                 ((w, EvPrint "Actual cert Directory is empty")
                    :: ((w, EvOpen (claim_cert_path cfg))
                          :: (w, EvGetOfficialCerts false) :: callback_trace payloads
                          ++ [(w1, EvPrint "### Bootstrap cert non-existent. Official cert may already be in place.")])
                    ++ [(w1, EvPrint "Starting sensor")]) w1
                 "Provisioning complete. Starting job agent to listen for jobs").
        -- cbn [app]. rewrite <- !app_assoc. reflexivity.
        -- intros we [<-|Hwe]; [reflexivity|]. apply in_app_or in Hwe.
           destruct Hwe as [[<-|[<-|Hwe]]|[<-|[]]]; try reflexivity.
           apply in_app_or in Hwe. destruct Hwe as [Hwe|[<-|[]]]; [|reflexivity].
           eapply Hcb, Hwe.
      * intros [Hin|[Hin|[Hin|Hin]]]; try discriminate.
        apply Hcb in Hin. discriminate.
      * intros [Hin|[Hin|[Hin|Hin]]]; try discriminate.
        apply Hcb in Hin. discriminate.
    + cbn [fst snd app].
      apply (Hphase _
               [(w, EvPrint "Actual cert Directory is empty");
                (w, EvOpen (claim_cert_path cfg));
                (w, EvPrint "### Bootstrap cert non-existent. Official cert may already be in place.");
                (w, EvPrint "Starting sensor")] w
               "Provisioning complete. Starting job agent to listen for jobs").
      * reflexivity.
      * intros we [<-|[<-|[<-|[<-|[]]]]]; reflexivity.
  - rewrite (check_real_cert_provisioned env cfg fuel w x l Hdir).
    destruct (filter is_crt (x :: l)) as [|cert crts];
      [intros [Hin|[]]; discriminate|].
    destruct (filter is_key (x :: l)) as [|key keys];
      [intros [Hin|[]]; discriminate|].
    destruct (test_restricted_topic env "test message" _) as [[] w2|e w2];
      [|intros [Hin|[Hin|[]]]; discriminate].
    cbn [fst snd].
    apply (Hphase _
             [(with_provisioner (Provisioner.set_isFirst false) w,
               EvPrint "Directory is not empty so actual cert downloaded");
              (selected_world w cert key, EvTestRestrictedTopic "test message");
              (w2, EvPrint "Starting sensor")] w2
             "Starting job agent to listen for jobs").
    + reflexivity.
    + intros we [<-|[<-|[<-|[]]]]; reflexivity.
  - rewrite (check_real_cert_absent env cfg fuel w Hdir).
    intros [Hin|[]]. discriminate.
Qed.

End Once.

(** ** What the script leaves alone *)

Section Invariants.

Context {Ext : Type} (Inv : @World Ext -> Prop).

Lemma respects_ret {A : Type} (a : A) : respects Inv (ret a).
Proof.
  intros w Hw. split; [constructor|exact Hw].
Qed.

Lemma respects_bind {A B : Type} (m : M A) (k : A -> M B) :
  respects Inv m -> (forall a, respects Inv (k a)) -> respects Inv (bind m k).
Proof.
  intros Hm Hk w Hw. unfold bind. destruct (Hm w Hw) as [Htrace Hend].
  destruct (m w) as [t1 [a w1|e w1|]]; simpl in *; auto.
  destruct (Hk a w1 Hend) as [Htrace2 Hend2].
  destruct (k a w1) as [t2 o]. simpl in *. split; [|exact Hend2].
  apply Forall_app. now split.
Qed.

Lemma respects_emit (e : event) : respects Inv (emit e).
Proof.
  intros w Hw. split; [repeat constructor|]; exact Hw.
Qed.

Lemma respects_get_world : respects Inv (@get_world Ext).
Proof.
  intros w Hw. split; [constructor|exact Hw].
Qed.

Lemma respects_modify (f : World -> World) :
  (forall w, Inv w -> Inv (f w)) -> respects Inv (modify f).
Proof.
  intros Hf w Hw. split; [constructor|now apply Hf].
Qed.

Lemma respects_raise {A : Type} (e : exn) : respects Inv (@raise Ext A e).
Proof.
  intros w Hw. split; [constructor|exact Hw].
Qed.

Lemma respects_call {A : Type} (e : event) (f : World -> result A) :
  (forall w, Inv w -> result_holds Inv (f w)) -> respects Inv (call e f).
Proof.
  intros Hf w Hw. unfold call. simpl. split; [repeat constructor; exact Hw|].
  specialize (Hf w Hw). now destruct (f w).
Qed.

Lemma respects_try_except_IOError {A : Type} (body handler : M A) :
  respects Inv body -> respects Inv handler -> respects Inv (try_except_IOError body handler).
Proof.
  intros Hbody Hhandler w Hw. unfold try_except_IOError.
  destruct (Hbody w Hw) as [Htrace Hend].
  destruct (body w) as [t1 [a w1|[| |name] w1|]]; simpl in *; auto.
  destruct (Hhandler w1 Hend) as [Htrace2 Hend2].
  destruct (handler w1) as [t2 o]. simpl in *. split; [|exact Hend2].
  apply Forall_app. now split.
Qed.

Lemma respects_os_listdir (path : string) : respects Inv (os_listdir path).
Proof.
  intros w Hw. unfold os_listdir.
  destruct (fs_lookup (fs w) path) as [[c|l]|]; simpl; split; auto.
Qed.

Lemma respects_index0 (files : list string) : respects Inv (index0 files).
Proof.
  destruct files; [apply respects_raise|apply respects_ret].
Qed.

Lemma respects_with_open {A : Type} (path : string) (body : M A) :
  respects Inv body -> respects Inv (with_open path body).
Proof.
  intros Hbody. unfold with_open.
  apply respects_bind; [apply respects_emit|intros _].
  apply respects_bind; [apply respects_get_world|intros w].
  destruct (can_open (fs w) path); [exact Hbody|apply respects_raise].
Qed.

Context (env : @Collaborators Ext) (cfg : Settings).
Hypothesis Hcollaborators : kept_by_collaborators Inv env.
Hypothesis Hassignments : kept_by_assignments Inv.

Lemma respects_provisioner_get_official_certs (isRotation : bool) :
  respects Inv (provisioner_get_official_certs env isRotation).
Proof.
  intros w Hw. unfold provisioner_get_official_certs.
  destruct Hcollaborators as (Hget & _). destruct (Hget isRotation w Hw) as [Hcb Hend].
  destruct (get_official_certs env isRotation w) as [payloads r]. simpl in *. split.
  - constructor; [exact Hw|]. unfold callback_trace. apply Forall_forall.
    intros we Hin. apply in_flat_map in Hin. destruct Hin as (wp & Hwp & [<-|[]]).
    rewrite Forall_forall in Hcb. apply (Hcb _ Hwp).
  - now destruct r.
Qed.

Lemma respects_run_provisioning (isRotation : bool) :
  respects Inv (run_provisioning env cfg isRotation).
Proof.
  unfold run_provisioning. destruct isRotation.
  - apply respects_provisioner_get_official_certs.
  - apply respects_try_except_IOError; [|apply respects_emit].
    apply respects_with_open, respects_provisioner_get_official_certs.
Qed.

Lemma respects_sensor_simulator : respects Inv (@sensor_simulator Ext).
Proof.
  unfold sensor_simulator. apply respects_bind; intros; apply respects_emit.
Qed.

Lemma respects_wait_for_reboot (fuel : nat) (ja : JobAgent) :
  respects Inv (wait_for_reboot env fuel ja).
Proof.
  destruct Hcollaborators as (_ & _ & _ & _ & Hpoll & _).
  induction fuel as [|fuel IH]; intros w Hw; [exact (conj (Forall_nil _) Logic.I)|].
  rewrite wait_for_reboot_S. specialize (Hpoll ja w Hw).
  destruct (isRebooting env ja w) as [[|] w1|e w1]; simpl in *;
    try (split; [repeat constructor; exact Hw|exact Hpoll]).
  destruct (IH w1 Hpoll) as [Htrace Hend]. split; [|exact Hend].
  repeat (constructor; [assumption|]). exact Htrace.
Qed.

Lemma respects_job_loop (fuel : nat) (ja : JobAgent) :
  respects Inv (job_loop env fuel ja).
Proof.
  pose proof Hcollaborators as (_ & _ & _ & Hinit & _ & Hdisconnect).
  induction fuel as [|fuel IH]; [intros w Hw; exact (conj (Forall_nil _) Logic.I)|].
  change (job_loop env (S fuel) ja)
    with (bind (call (EvInit ja) (init env ja))
            (fun _ => bind (wait_for_reboot env fuel ja)
               (fun _ => bind (call (EvDisconnect ja) (disconnect env ja))
                  (fun _ => job_loop env fuel ja)))).
  apply respects_bind; [apply respects_call, Hinit|intros _].
  apply respects_bind; [apply respects_wait_for_reboot|intros _].
  apply respects_bind; [apply respects_call, Hdisconnect|intros _].
  exact IH.
Qed.

Lemma respects_new_jobagent : respects Inv (new_jobagent env cfg).
Proof.
  pose proof Hcollaborators as (_ & _ & Hnew & _).
  unfold new_jobagent.
  apply respects_bind; [apply respects_get_world|intros w].
  apply respects_bind; [apply respects_call, Hnew|intros _]. apply respects_ret.
Qed.

(** X12.  The script changes the world only through its collaborators
    and through the three attributes it assigns.  A property of the world
    that the collaborators keep, and that does not depend on [isFirst],
    [new_cert_name] and [new_key_name], holds in every world a run
    records and in the world it ends in, if it held at the start. *)
Theorem X12_script_keeps_what_collaborators_keep (fuel : nat) :
  respects Inv (check_real_cert env cfg fuel).
Proof.
  pose proof Hcollaborators as (_ & Hprobe & _).
  assert (HisFirst : forall w, Inv w -> Inv (with_provisioner (Provisioner.set_isFirst false) w))
    by (intros w Hw; apply (Hassignments w Hw)).
  assert (Hcert : forall name w,
             Inv w -> Inv (with_provisioner (Provisioner.set_new_cert_name name) w))
    by (intros name w Hw; apply (Hassignments w Hw)).
  assert (Hkey : forall name w,
             Inv w -> Inv (with_provisioner (Provisioner.set_new_key_name name) w))
    by (intros name w Hw; apply (Hassignments w Hw)).
  assert (Hphase : respects Inv (bind (new_jobagent env cfg)
                                 (fun jobagent => job_loop env fuel jobagent))).
  { apply respects_bind; [apply respects_new_jobagent|intros ja].
    apply respects_job_loop. }
  unfold check_real_cert.
  apply respects_bind; [apply respects_get_world|intros w].
  destruct (os_path_exists (fs w) (actua_cert_path cfg)
            && os_path_isdir (fs w) (actua_cert_path cfg)); [|apply respects_emit].
  apply respects_bind; [apply respects_os_listdir|intros [|x l]].
  - apply respects_bind; [apply respects_emit|intros _].
    apply respects_bind; [apply respects_run_provisioning|intros _].
    apply respects_bind; [apply respects_emit|intros _].
    apply respects_bind; [apply respects_sensor_simulator|intros _].
    apply respects_bind; [apply respects_emit|intros _].
    exact Hphase.
  - apply respects_bind; [apply respects_modify, HisFirst|intros _].
    apply respects_bind; [apply respects_emit|intros _].
    apply respects_bind; [apply respects_os_listdir|intros listing1].
    apply respects_bind; [apply respects_index0|intros cert].
    apply respects_bind; [apply respects_modify, Hcert|intros _].
    apply respects_bind; [apply respects_os_listdir|intros listing2].
    apply respects_bind; [apply respects_index0|intros key].
    apply respects_bind; [apply respects_modify, Hkey|intros _].
    apply respects_bind; [apply respects_call, Hprobe|intros _].
    apply respects_bind; [apply respects_emit|intros _].
    apply respects_bind; [apply respects_sensor_simulator|intros _].
    apply respects_bind; [apply respects_emit|intros _].
    exact Hphase.
Qed.

End Invariants.

(** ** The demo device, at the edges *)

Lemma demo_first_match_single_crt : first_match is_crt ["dev42.crt"] "dev42.crt".
Proof.
  exists [], []. repeat split. intros y [].
Qed.

Lemma demo_keeps_unique_id : kept_by_collaborators Demo.is_dev42 Demo.collaborators.
Proof.
  repeat split; intros; simpl; auto.
Qed.

Lemma demo_assignments_keep_unique_id : kept_by_assignments Demo.is_dev42.
Proof.
  intros w Hw. repeat split; intros; exact Hw.
Qed.

(** X2 on a first boot whose exchange cannot write its files. *)
Lemma X2_failing_exchange_witness :
  can_open (fs Demo.first_boot) (claim_cert_path Demo.settings) = true /\
  run_provisioning Demo.failing_exchange Demo.settings false Demo.first_boot =
  ([(Demo.first_boot, EvOpen "certs/bootstrap.crt");
    (Demo.first_boot, EvGetOfficialCerts false);
    (Demo.first_boot,
     EvPrint "### Bootstrap cert non-existent. Official cert may already be in place.")],
   Ok tt Demo.first_boot).
Proof.
  split; [reflexivity|].
  exact (proj1 (X2_exchange_IOError_is_swallowed Demo.failing_exchange Demo.settings
                  Demo.first_boot Demo.first_boot [] eq_refl) eq_refl).
Defined.

(** X3 on a device shipped without its claim certificate. *)
Lemma X3_no_claim_witness :
  listing_of Demo.settings Demo.first_boot_no_claim = Some [] /\
  In (Demo.first_boot_no_claim, EvNewAgent Demo.unprovisioned_agent)
     (fst (check_real_cert Demo.collaborators Demo.settings 2 Demo.first_boot_no_claim)).
Proof.
  split; [reflexivity|].
  destruct (proj1 (X3_first_boot_goes_on_without_certificate Demo.collaborators Demo.settings
                     2 Demo.first_boot_no_claim eq_refl) eq_refl) as [post Hpost].
  rewrite Hpost. do 7 right. left. reflexivity.
Defined.

(** X4 on a first boot whose exchange times out. *)
Lemma X4_timed_out_witness :
  listing_of Demo.settings Demo.first_boot = Some [] /\
  snd (check_real_cert Demo.timed_out_exchange Demo.settings 2 Demo.first_boot) =
    Raised (OtherError "connectTimeoutException") Demo.first_boot /\
  count_events is_thread_start
    (fst (check_real_cert Demo.timed_out_exchange Demo.settings 2 Demo.first_boot)) = 0.
Proof.
  destruct (X4_exchange_failure_ends_first_boot Demo.timed_out_exchange Demo.settings 2
              Demo.first_boot Demo.first_boot [] (OtherError "connectTimeoutException")
              eq_refl eq_refl ltac:(discriminate) eq_refl) as (Hrun & Hthread & _).
  split; [reflexivity|]. split; [now rewrite Hrun|exact Hthread].
Defined.

(** X5 on a directory with a certificate and no key. *)
Lemma X5_missing_key_witness :
  listing_of Demo.settings Demo.missing_key = Some ["dev42.crt"] /\
  exists w',
    snd (check_real_cert Demo.collaborators Demo.settings 2 Demo.missing_key)
      = Raised IndexError w' /\
    Provisioner.new_cert_name (provisioner w') = "dev42.crt" /\
    Provisioner.new_key_name (provisioner w') = "".
Proof.
  split; [reflexivity|].
  destruct (proj1 (X5_names_are_assigned_one_by_one Demo.collaborators Demo.settings 2
                     Demo.missing_key ["dev42.crt"] eq_refl ltac:(discriminate))
              "dev42.crt" demo_first_match_single_crt eq_refl)
    as (w' & Hend & Hcert & Hkey & _).
  exists w'. split; [exact Hend|]. split; [exact Hcert|exact Hkey].
Defined.

(** X6 on a directory that holds one stray file. *)
Lemma X6_stray_file_witness :
  listing_of Demo.settings Demo.stray_file = Some ["notes.txt"] /\
  exists w',
    check_real_cert Demo.collaborators Demo.settings 2 Demo.stray_file =
    ([(with_provisioner (Provisioner.set_isFirst false) Demo.stray_file,
       EvPrint "Directory is not empty so actual cert downloaded")],
     Raised IndexError w').
Proof.
  split; [reflexivity|].
  exact (X6_single_entry_raises_IndexError Demo.collaborators Demo.settings 2
           Demo.stray_file "notes.txt" eq_refl).
Defined.

(** X7 on a provisioned device. *)
Lemma X7_provisioned_witness :
  In (selected_world Demo.provisioned "dev42.crt" "dev42.key",
      EvTestRestrictedTopic "test message")
     (fst (check_real_cert Demo.collaborators Demo.settings 2 Demo.provisioned)) /\
  (exists stem, "dev42.crt" = (stem ++ ".crt")%string) /\
  (exists stem, "dev42.key" = (stem ++ ".key")%string).
Proof.
  assert (Hin : In (selected_world Demo.provisioned "dev42.crt" "dev42.key",
                    EvTestRestrictedTopic "test message")
                   (fst (check_real_cert Demo.collaborators Demo.settings 2 Demo.provisioned)))
    by (vm_compute; right; left; reflexivity).
  split; [exact Hin|].
  exact (proj2 (proj2 (X7_selected_names_have_the_suffixes Demo.collaborators Demo.settings 2
                         Demo.provisioned
                         (selected_world Demo.provisioned "dev42.crt" "dev42.key")
                         [] "test message")) Hin).
Defined.

(** X8 on a provisioned device. *)
Lemma X8_provisioned_witness :
  In (selected_world Demo.provisioned "dev42.crt" "dev42.key",
      EvTestRestrictedTopic "test message")
     (fst (check_real_cert Demo.collaborators Demo.settings 2 Demo.provisioned)) /\
  fs (selected_world Demo.provisioned "dev42.crt" "dev42.key") = fs Demo.provisioned /\
  Provisioner.isFirst (provisioner (selected_world Demo.provisioned "dev42.crt" "dev42.key"))
    = false.
Proof.
  assert (Hin : In (selected_world Demo.provisioned "dev42.crt" "dev42.key",
                    EvTestRestrictedTopic "test message")
                   (fst (check_real_cert Demo.collaborators Demo.settings 2 Demo.provisioned)))
    by (vm_compute; right; left; reflexivity).
  destruct (X8_probe_runs_in_the_initial_world Demo.collaborators Demo.settings 2
              Demo.provisioned _ _ Hin) as (_ & Hfs & _ & Hfirst & _).
  exact (conj Hin (conj Hfs Hfirst)).
Defined.

(** X10 on a first boot: the first [init] is made on the agent just
    constructed. *)
Lemma X10_first_boot_witness :
  In (Demo.issued Demo.first_boot, EvInit Demo.agent)
     (fst (check_real_cert Demo.collaborators Demo.settings 2 Demo.first_boot)) /\
  exists wa wl ja,
    In (wa, EvNewAgent ja)
       (fst (check_real_cert Demo.collaborators Demo.settings 2 Demo.first_boot)) /\
    DeviceJobAgent Demo.collaborators ja wa = Returns tt wl /\
    loop_call_of ja (EvInit Demo.agent).
Proof.
  assert (Hin : In (Demo.issued Demo.first_boot, EvInit Demo.agent)
                   (fst (check_real_cert Demo.collaborators Demo.settings 2 Demo.first_boot)))
    by (vm_compute; do 9 right; left; reflexivity).
  split; [exact Hin|].
  destruct (X10_agent_calls_follow_a_construction Demo.collaborators Demo.settings 2
              Demo.first_boot _ _ Hin eq_refl) as (wa & wl & ja & Hnew & _ & Hret & Hcall).
  now exists wa, wl, ja.
Defined.

(** X11 on a first boot. *)
Lemma X11_first_boot_witness :
  In (Demo.issued Demo.first_boot, EvNewAgent Demo.agent)
     (fst (check_real_cert Demo.collaborators Demo.settings 2 Demo.first_boot)) /\
  exists pre text post,
    fst (check_real_cert Demo.collaborators Demo.settings 2 Demo.first_boot) =
    pre ++ (Demo.issued Demo.first_boot, EvThreadStart)
        :: (Demo.issued Demo.first_boot, EvPrint "Sensor thread Started")
        :: (Demo.issued Demo.first_boot, EvPrint text)
        :: (Demo.issued Demo.first_boot, EvNewAgent Demo.agent) :: post.
Proof.
  assert (Hin : In (Demo.issued Demo.first_boot, EvNewAgent Demo.agent)
                   (fst (check_real_cert Demo.collaborators Demo.settings 2 Demo.first_boot)))
    by (vm_compute; do 8 right; left; reflexivity).
  split; [exact Hin|].
  exact (X11_sensor_thread_before_the_agent Demo.collaborators Demo.settings 2
           Demo.first_boot _ _ Hin).
Defined.

(** X12 on a first boot: the device is [dev42] all along. *)
Lemma X12_unique_id_witness :
  Demo.is_dev42 Demo.first_boot /\
  Forall (fun we => Demo.is_dev42 (fst we))
    (fst (check_real_cert Demo.collaborators Demo.settings 3 Demo.first_boot)).
Proof.
  split; [reflexivity|].
  exact (proj1 (X12_script_keeps_what_collaborators_keep Demo.is_dev42 Demo.collaborators
                  Demo.settings demo_keeps_unique_id demo_assignments_keep_unique_id 3
                  Demo.first_boot eq_refl)).
Defined.
